(** * A CRUD data service and its single-page client

    A shallow embedding of the Express data service ([BACKEND/src/index.js]),
    of the fetch wrapper ([FRONTEND/src/config/api.js]) and of the React
    component ([FRONTEND/src/App.jsx]), with the request/response contract
    between them stated and proved.

    Layout: JavaScript values and strings; the hosted table; the route
    handlers as programs that may await one database call; the client's
    handlers as programs over setter calls and HTTP requests; interpreters;
    and then the properties. *)

From stdpp Require Import base option list gmap fin_maps strings sorting pretty.
From Stdlib Require Import Ascii ZArith Lia.

Local Open Scope Z_scope.


(** ** JavaScript values *)

Module Js.

(** The values a JSON request body can give to a property.  [JObject]
    stands for any array or object: only its truthiness is used.  Numbers
    are the integer-valued ones. *)
Inductive Value : Type :=
| JUndefined
| JNull
| JBool (b : bool)
| JNum (n : Z)
| JStr (s : string)
| JObject.

#[global] Instance Value_eq_dec : EqDecision Value.
Proof. solve_decision. Defined.

(** ToBoolean: [undefined], [null], [false], [0] and the empty string are
    falsy, everything else is truthy. *)
Definition truthy (v : Value) : bool :=
  match v with
  | JUndefined | JNull => false
  | JBool b => b
  | JNum n => negb (n =? 0)
  | JStr s => negb (String.eqb s "")
  | JObject => true
  end.

(** An [Error] object; only its [message] is ever read. *)
Record Error : Type := mkError { message : string }.

(** WhiteSpace and LineTerminator code units (those below 256): TAB, LF,
    VT, FF, CR, SP and NBSP.  A character of a [string] is read as one
    code unit. *)
Definition is_white_space (a : ascii) : bool :=
  let n := N_of_ascii a in
  ((9 <=? n) && (n <=? 13) || (n =? 32) || (n =? 160))%N.

Fixpoint trimStart (s : string) : string :=
  match s with
  | EmptyString => EmptyString
  | String a s' => if is_white_space a then trimStart s' else s
  end.

Definition trimEnd (s : string) : string :=
  String.rev (trimStart (String.rev s)).

(** [String.prototype.trim] *)
Definition trim (s : string) : string := trimEnd (trimStart s).

(** Truthiness of a string, as in [if (!s.trim())]. *)
Definition nonempty (s : string) : bool := negb (String.eqb s "").

End Js.

Import Js.

(** ** The hosted table *)

Module Db.

(** One row of table [data] as the API returns it. *)
Record Row : Type := mkRow {
  row_id : Z;
  row_name : string;
  row_created_at : Z
}.

#[global] Instance Row_eq_dec : EqDecision Row.
Proof. solve_decision. Defined.

(** The statements the service sends, one constructor per call chain of
    the client library:
    - [from("data").select("count", {count: "exact", head: true})]
    - [from("data").select("*").order(col, {ascending})]
    - [from("data").insert([{name}]).select()]
    - [from("data").update({name}).eq("id", id).select()]
    - [from("data").delete().eq("id", id)] *)
Inductive Column : Type := ColId | ColName | ColCreatedAt.

Inductive Query : Type :=
| SelectCount
| SelectAllOrder (col : Column) (ascending : bool)
| InsertSelect (name : Value)
| UpdateEqSelect (name : Value) (id : Z)
| DeleteEq (id : Z).

(** What an awaited call resolves to: [{data, error}], where [data] is
    [null] or an array of rows and [error] is [null] or an error. *)
Record Result : Type := mkResult {
  data : option (list Row);
  error : option Error
}.

(** An awaited call either resolves or rejects. *)
Inductive Reply : Type :=
| Resolved (r : Result)
| Rejected (e : Error).

(** Modelled from the spec: the stored collection, which lives in the
    hosted database and not in this repository.  A record has a
    server-assigned unique [id], a [name] (text) and a server-assigned
    [created_at] that is written at insertion only; [rows] maps each id
    to the other two fields, [next_id] is the id sequence. *)
Record Database : Type := mkDatabase {
  rows : gmap Z (string * Z);
  next_id : Z
}.

Definition empty : Database := {| rows := ∅; next_id := 1 |}.

(** What the environment contributes to one call: whether the database is
    reachable and sound, and its clock.  A call that fails resolves with
    [error] set ([Fails]) or rejects ([Crashes]); whether the statement had
    taken effect before the failure was reported is the environment's to
    say ([committed]). *)
Inductive Fault : Type :=
| Healthy
| Fails (msg : string) (committed : bool)
| Crashes (msg : string) (committed : bool).

Record Oracle : Type := mkOracle {
  fault : Fault;
  now : Z
}.

Definition to_row (kv : Z * (string * Z)) : Row :=
  {| row_id := kv.1; row_name := kv.2.1; row_created_at := kv.2.2 |}.

Definition key_of (c : Column) (r : Row) : Z + string :=
  match c with
  | ColId => inl (row_id r)
  | ColName => inr (row_name r)
  | ColCreatedAt => inl (row_created_at r)
  end.

Definition key_le (a b : Z + string) : Prop :=
  match a, b with
  | inl x, inl y => x ≤ y
  | inr x, inr y => String.le x y
  | inl _, inr _ => True
  | inr _, inl _ => False
  end.

(** The order requested by [.order(col, {ascending})]. *)
Definition row_le (c : Column) (ascending : bool) (r1 r2 : Row) : Prop :=
  if ascending then key_le (key_of c r1) (key_of c r2)
  else key_le (key_of c r2) (key_of c r1).

#[global] Instance key_le_dec : RelDecision key_le.
Proof. intros [x|x] [y|y]; simpl; apply _. Defined.

#[global] Instance row_le_dec c asc : RelDecision (row_le c asc).
Proof. intros r1 r2. unfold row_le. destruct asc; apply _. Defined.

Definition all_rows (db : Database) : list Row :=
  to_row <$> map_to_list (rows db).

(** Modelled from the spec: [name] is a text column.  The text a JSON value
    takes in it; [None] when the column refuses the value. *)
Definition column_text (v : Value) : option string :=
  match v with
  | JStr s => Some s
  | JNum n => Some (pretty n)
  | JBool true => Some "true"
  | JBool false => Some "false"
  | JUndefined | JNull | JObject => None
  end.

Definition ok_rows (l : list Row) : Result :=
  {| data := Some l; error := None |}.
Definition ok_null : Result := {| data := None; error := None |}.
Definition failed (msg : string) : Result :=
  {| data := None; error := Some (mkError msg) |}.

(** Modelled from the spec: what the hosted database does with a statement
    when it is sound.  A select returns the rows in the order asked for; an
    insert takes the next id of the sequence and the database's time [t];
    an update writes [name] only, on the row of that id if there is one; a
    delete removes the row of that id if there is one. *)
Definition run_query (q : Query) (t : Z) (db : Database) : Result * Database :=
  match q with
  | SelectCount => (ok_null, db)
  | SelectAllOrder c asc => (ok_rows (merge_sort (row_le c asc) (all_rows db)), db)
  | InsertSelect v =>
      let id := next_id db in
      let seq := {| rows := rows db; next_id := id + 1 |} in
      match column_text v, rows db !! id with
      | Some s, None =>
          (ok_rows [mkRow id s t],
           {| rows := <[id := (s, t)]> (rows db); next_id := id + 1 |})
      | Some _, Some _ =>
          (failed "duplicate key value violates unique constraint", seq)
      | None, _ => (failed "invalid input value for column name", db)
      end
  | UpdateEqSelect v id =>
      match column_text v with
      | Some s =>
          match rows db !! id with
          | Some (_, created) =>
              (ok_rows [mkRow id s created],
               {| rows := <[id := (s, created)]> (rows db); next_id := next_id db |})
          | None => (ok_rows [], db)
          end
      | None => (failed "invalid input value for column name", db)
      end
  | DeleteEq id =>
      (ok_null, {| rows := delete id (rows db); next_id := next_id db |})
  end.

(** The table after a call that failed: with the statement's effect when
    it had been committed, as it was otherwise. *)
Definition after_failure (committed : bool) (q : Query) (o : Oracle) (db : Database)
  : Database :=
  if committed then (run_query q (now o) db).2 else db.

(** One awaited call, under the environment's [Oracle]: the statement is
    run, or the call resolves with an error, or it rejects. *)
Definition exec (q : Query) (o : Oracle) (db : Database) : Reply * Database :=
  match fault o with
  | Healthy => let '(r, db') := run_query q (now o) db in (Resolved r, db')
  | Fails msg committed => (Resolved (failed msg), after_failure committed q o db)
  | Crashes msg committed => (Rejected (mkError msg), after_failure committed q o db)
  end.

End Db.

Import Db.

(** ** Programs with effects

    Asynchronous functions are written as trees: a program returns, throws,
    or performs an effect of signature [E] and continues with its answer.
    Every [await] is an effect node. *)

Module Prog.

Inductive t (E : Type → Type) (A : Type) : Type :=
| Ret (a : A)
| Throw (e : Error)
| Vis {X : Type} (ev : E X) (k : X → t E A).

Arguments Ret {E A} a.
Arguments Throw {E A} e.
Arguments Vis {E A X} ev k.

Fixpoint bind {E A B} (p : t E A) (f : A → t E B) : t E B :=
  match p with
  | Ret a => f a
  | Throw e => Throw e
  | Vis ev k => Vis ev (λ x, bind (k x) f)
  end.

(** [try { p } catch (err) { h err }] *)
Fixpoint catch {E A} (p : t E A) (h : Error → t E A) : t E A :=
  match p with
  | Ret a => Ret a
  | Throw e => h e
  | Vis ev k => Vis ev (λ x, catch (k x) h)
  end.

(** [try { p } finally { f }]: [f] runs on both exits and the exit of
    [p] is kept. *)
Fixpoint finally {E A} (p : t E A) (f : t E unit) : t E A :=
  match p with
  | Ret a => bind f (λ _, Ret a)
  | Throw e => bind f (λ _, Throw e)
  | Vis ev k => Vis ev (λ x, finally (k x) f)
  end.

Definition trigger {E X} (ev : E X) : t E X := Vis ev Ret.

(** How a run of a program ends. *)
Inductive Outcome (A : Type) : Type :=
| Returned (a : A)
| Threw (e : Error).
Arguments Returned {A} a.
Arguments Threw {A} e.

End Prog.

Import Prog.

#[global] Instance prog_ret E : MRet (Prog.t E) := λ A a, Ret a.
#[global] Instance prog_bind E : MBind (Prog.t E) := λ A B f p, Prog.bind p f.

(** ** Requests

    A path is kept as the route it spells: ["/"], ["/api/health"],
    ["/api/data"] and ["/api/data/" + id]. *)

Module Http.

Inductive Method : Type := GET | POST | PUT | DELETE.

Inductive Endpoint : Type :=
| Root
| ApiHealth
| ApiData
| ApiDataId (id : Z).

#[global] Instance Method_eq_dec : EqDecision Method.
Proof. solve_decision. Defined.
#[global] Instance Endpoint_eq_dec : EqDecision Endpoint.
Proof. solve_decision. Defined.

End Http.

Import Http.

(** ** The data service: [BACKEND/src/index.js] *)

Module Backend.

(** The [data] property of a response body: absent ([undefined]), [null],
    one record or an array of records. *)
Inductive Data : Type :=
| DUndefined
| DNull
| DRow (r : Row)
| DRows (l : list Row).

(** A JSON response body: [{status, message, data}], where properties
    that are [undefined] are absent from the text sent. *)
Record Body : Type := mkBody {
  body_status : string;
  body_message : option string;
  body_data : Data
}.

Record Response : Type := mkResponse {
  code : Z;
  body : Body
}.

(** [req.params.id] and [req.body]; the body is [undefined] ([None]) or
    an object.  The id is the number the path segment spells; only the
    two routes with an [:id] segment read it. *)
Record Request : Type := mkRequest {
  params_id : Z;
  req_body : option (gmap string Value)
}.

(** Effects of a handler: an awaited database call, a console line. *)
Inductive ServerE : Type → Type :=
| Call (q : Query) : ServerE Reply
| Console (label detail : string) : ServerE unit.

Definition handler : Type := Prog.t ServerE Response.

(** [await supabase.from("data")...]: a rejected call throws. *)
Definition await (q : Query) : Prog.t ServerE Result :=
  reply ← trigger (Call q);
  match reply with
  | Resolved r => Ret r
  | Rejected e => Throw e
  end.

Definition console (label detail : string) : Prog.t ServerE unit :=
  trigger (Console label detail).

(** [res.json(b)] and [res.status(c).json(b)] *)
Definition json (b : Body) : Response := {| code := 200; body := b |}.
Definition status_json (c : Z) (b : Body) : Response := {| code := c; body := b |}.

Definition ok_message (m : string) : Body :=
  {| body_status := "ok"; body_message := Some m; body_data := DUndefined |}.
Definition ok_data (d : Data) : Body :=
  {| body_status := "ok"; body_message := None; body_data := d |}.
Definition error_message (m : string) : Body :=
  {| body_status := "error"; body_message := Some m; body_data := DUndefined |}.

(** [const { name } = req.body]: throws a TypeError when the body is
    [undefined]; a property that is absent reads as [undefined]. *)
Definition destructure_name (b : option (gmap string Value)) : Prog.t ServerE Value :=
  match b with
  | None =>
      Throw (mkError "Cannot destructure property 'name' of 'req.body' as it is undefined.")
  | Some o => Ret (default JUndefined (o !! "name"))
  end.

(** [data[0]]: throws a TypeError on [null], is [undefined] on []. *)
Definition index0 (d : option (list Row)) : Prog.t ServerE Data :=
  match d with
  | None => Throw (mkError "Cannot read properties of null (reading '0')")
  | Some [] => Ret DUndefined
  | Some (r :: _) => Ret (DRow r)
  end.

(** [data: data] *)
Definition whole (d : option (list Row)) : Data :=
  match d with
  | None => DNull
  | Some l => DRows l
  end.

(** [app.get("/")] *)
Definition get_root (req : Request) : handler :=
  Ret (json {| body_status := "ok"; body_message := Some "Backend running";
               body_data := DUndefined |}).

(** [app.get("/api/health")] *)
Definition get_api_health (req : Request) : handler :=
  catch
    (r ← await SelectCount;
     match error r with
     | Some e =>
         console "Supabase check error:" (message e);;
         Ret (json (ok_message ("Backend connected (DB: " +:+ message e +:+ ")")))
     | None => Ret (json (ok_message "Backend and Supabase connected"))
     end)
    (λ err, Ret (json (ok_message "Backend running"))).

(** [app.get("/api/data")] *)
Definition get_api_data (req : Request) : handler :=
  catch
    (r ← await (SelectAllOrder ColId true);
     match error r with
     | Some e =>
         console "Supabase error:" (message e);;
         Ret (status_json 500 (error_message (message e)))
     | None => Ret (json (ok_data (whole (data r))))
     end)
    (λ err, Ret (status_json 500 (error_message (message err)))).

(** [app.post("/api/data")] *)
Definition post_api_data (req : Request) : handler :=
  catch
    (name ← destructure_name (req_body req);
     if negb (truthy name) then
       Ret (status_json 400 (error_message "Name is required"))
     else
       r ← await (InsertSelect name);
       match error r with
       | Some e =>
           console "Supabase error:" (message e);;
           Ret (status_json 500 (error_message (message e)))
       | None => d ← index0 (data r); Ret (json (ok_data d))
       end)
    (λ err, Ret (status_json 500 (error_message (message err)))).

(** [app.put("/api/data/:id")] *)
Definition put_api_data_id (req : Request) : handler :=
  catch
    (let id := params_id req in
     name ← destructure_name (req_body req);
     if negb (truthy name) then
       Ret (status_json 400 (error_message "Name is required"))
     else
       r ← await (UpdateEqSelect name id);
       match error r with
       | Some e =>
           console "Supabase error:" (message e);;
           Ret (status_json 500 (error_message (message e)))
       | None => d ← index0 (data r); Ret (json (ok_data d))
       end)
    (λ err, Ret (status_json 500 (error_message (message err)))).

(** [app.delete("/api/data/:id")] *)
Definition delete_api_data_id (req : Request) : handler :=
  catch
    (let id := params_id req in
     r ← await (DeleteEq id);
     match error r with
     | Some e =>
         console "Supabase error:" (message e);;
         Ret (status_json 500 (error_message (message e)))
     | None => Ret (json (ok_message "Deleted successfully"))
     end)
    (λ err, Ret (status_json 500 (error_message (message err)))).

(** *** Running a handler *)

(** What a run leaves behind: the database calls made, in order, and the
    console lines. *)
Record Log : Type := mkLog {
  calls : list Query;
  lines : list (string * string)
}.

Definition no_log : Log := {| calls := []; lines := [] |}.

Definition log_call (q : Query) (l : Log) : Log :=
  {| calls := calls l ++ [q]; lines := lines l |}.
Definition log_line (a b : string) (l : Log) : Log :=
  {| calls := calls l; lines := lines l ++ [(a, b)] |}.

Section Run.
(** Any database: a state [S] and the answer to each call. *)
Context {S : Type} (answer : Query → S → Reply * S).

Fixpoint run_from {A} (p : Prog.t ServerE A) (s : S) (l : Log)
  : Outcome A * S * Log :=
  match p with
  | Ret a => (Returned a, s, l)
  | Throw e => (Threw e, s, l)
  | Vis ev k =>
      match ev in ServerE X return (X → Prog.t ServerE A) → _ with
      | Call q => λ k,
          let '(reply, s') := answer q s in
          run_from (k reply) s' (log_call q l)
      | Console a b => λ k, run_from (k tt) s (log_line a b l)
      end k
  end.

Definition run {A} (p : Prog.t ServerE A) (s : S) : Outcome A * S * Log :=
  run_from p s no_log.
End Run.

(** A handler served against the hosted table under one [Oracle]. *)
Definition serve (h : handler) (o : Oracle) (db : Database)
  : Outcome Response * Database * Log :=
  run (λ q, Db.exec q o) h db.

(** The routes registered on [app]. *)
Definition route (m : Method) (e : Endpoint) : option (Request → handler) :=
  match m, e with
  | GET, Root => Some get_root
  | GET, ApiHealth => Some get_api_health
  | GET, ApiData => Some get_api_data
  | POST, ApiData => Some post_api_data
  | PUT, ApiDataId _ => Some put_api_data_id
  | DELETE, ApiDataId _ => Some delete_api_data_id
  | _, _ => None
  end.

Definition params_of (e : Endpoint) : Z :=
  match e with
  | ApiDataId id => id
  | _ => 0
  end.

End Backend.

Import Backend.

(** ** The client: [FRONTEND/src/config/api.js] and [FRONTEND/src/App.jsx] *)

Module Client.

(** The [options] given to [fetch]. *)
Record Options : Type := mkOptions {
  method : Method;
  opt_body : option (gmap string Value);
  headers : gmap string string
}.

(** What the global [fetch] resolves to, a status and (when the payload
    is JSON) a body, or the error it rejects with. *)
Inductive FetchReply : Type :=
| Responded (status : Z) (payload : option Body)
| Unreachable (e : Error).

(** [actionLoading]: [null], ['add'] or a record id. *)
Inductive Marker : Type := NoAction | Adding | OnRow (id : Z).

(** The component's state variables. *)
Record State : Type := mkState {
  backendStatus : string;
  loading : bool;
  data : Data;
  dataLoading : bool;
  showData : bool;
  editingId : option Z;
  editValue : string;
  showAddForm : bool;
  newName : string;
  actionLoading : Marker
}.

(** [useState] initial values. *)
Definition initial : State :=
  {| backendStatus := "Checking..."; loading := true; data := DRows [];
     dataLoading := false; showData := false; editingId := None;
     editValue := ""; showAddForm := false; newName := "";
     actionLoading := NoAction |}.

(** A call of one of the state setters. *)
Inductive Update : Type :=
| setBackendStatus (s : string)
| setLoading (b : bool)
| setData (d : Data)
| setDataLoading (b : bool)
| setShowData (b : bool)
| setEditingId (i : option Z)
| setEditValue (s : string)
| setShowAddForm (b : bool)
| setNewName (s : string)
| setActionLoading (m : Marker).

Definition apply (u : Update) (st : State) : State :=
  let '(mkState status load rows fetching shown editing text form name marker) := st in
  match u with
  | setBackendStatus s => mkState s load rows fetching shown editing text form name marker
  | setLoading b => mkState status b rows fetching shown editing text form name marker
  | setData d => mkState status load d fetching shown editing text form name marker
  | setDataLoading b => mkState status load rows b shown editing text form name marker
  | setShowData b => mkState status load rows fetching b editing text form name marker
  | setEditingId i => mkState status load rows fetching shown i text form name marker
  | setEditValue s => mkState status load rows fetching shown editing s form name marker
  | setShowAddForm b => mkState status load rows fetching shown editing text b name marker
  | setNewName s => mkState status load rows fetching shown editing text form s marker
  | setActionLoading m => mkState status load rows fetching shown editing text form name m
  end.

(** Effects of the client. *)
Inductive ClientE : Type → Type :=
| Fetch (e : Endpoint) (config : Options) : ClientE FetchReply
| SetState (u : Update) : ClientE unit
| Alert (msg : string) : ClientE unit
| Confirm (msg : string) : ClientE bool
| ConsoleError (label : string) (e : Error) : ClientE unit.

Abbreviation action := (Prog.t ClientE).

Definition set_state (u : Update) : action unit := trigger (SetState u).
Definition alert (msg : string) : action unit := trigger (Alert msg).
Definition confirm (msg : string) : action bool := trigger (Confirm msg).
Definition console_error (label : string) (e : Error) : action unit :=
  trigger (ConsoleError label e).

(** *** [api.js] *)

Module api.

(** [api.fetch(endpoint, options)] *)
Definition fetch (endpoint : Endpoint) (options : Options) : action Body :=
  let config :=
    {| method := method options; opt_body := opt_body options;
       headers := headers options ∪ {["Content-Type" := "application/json"]} |} in
  reply ← trigger (Fetch endpoint config);
  match reply with
  | Unreachable e => Throw e
  | Responded status payload =>
      if negb ((200 <=? status) && (status <=? 299)) then
        Throw (mkError ("API Error: " +:+ pretty status))
      else
        match payload with
        | Some b => Ret b
        | None => Throw (mkError "Unexpected token in JSON")
        end
  end.

Definition get (endpoint : Endpoint) : action Body :=
  fetch endpoint {| method := GET; opt_body := None; headers := ∅ |}.

(** The body is kept as the object that [JSON.stringify] spells. *)
Definition post (endpoint : Endpoint) (d : gmap string Value) : action Body :=
  fetch endpoint {| method := POST; opt_body := Some d; headers := ∅ |}.

Definition put (endpoint : Endpoint) (d : gmap string Value) : action Body :=
  fetch endpoint {| method := PUT; opt_body := Some d; headers := ∅ |}.

Definition delete (endpoint : Endpoint) : action Body :=
  fetch endpoint {| method := DELETE; opt_body := None; headers := ∅ |}.

End api.

(** *** [App.jsx]

    A handler is a closure of one render: it reads the state variables
    of that render ([st]) and calls setters. *)

(** [response.message || 'Connected!'] *)
Definition message_or (m : option string) (d : string) : string :=
  match m with
  | Some s => if nonempty s then s else d
  | None => d
  end.

(** [response.data || []] *)
Definition data_or_empty (d : Data) : Data :=
  match d with
  | DUndefined | DNull => DRows []
  | _ => d
  end.

Definition checkBackendConnection : action unit :=
  finally
    (catch
       (response ← api.get ApiHealth;
        set_state (setBackendStatus (message_or (body_message response) "Connected!")))
       (λ error,
          set_state (setBackendStatus "Failed to connect to backend");;
          console_error "Backend connection error:" error))
    (set_state (setLoading false)).

Definition fetchData : action unit :=
  set_state (setDataLoading true);;
  finally
    (catch
       (response ← api.get ApiData;
        set_state (setData (data_or_empty (body_data response)));;
        set_state (setShowData true))
       (λ error,
          console_error "Error fetching data:" error;;
          alert "Failed to fetch data from database"))
    (set_state (setDataLoading false)).

Definition handleAdd (st : State) : action unit :=
  if negb (nonempty (trim (newName st))) then
    alert "Please enter a name"
  else
    set_state (setActionLoading Adding);;
    finally
      (catch
         (api.post ApiData {["name" := JStr (newName st)]};;
          set_state (setNewName "");;
          set_state (setShowAddForm false);;
          fetchData)
         (λ error,
            console_error "Error adding data:" error;;
            alert "Failed to add data"))
      (set_state (setActionLoading NoAction)).

Definition handleEdit (item : Row) : action unit :=
  set_state (setEditingId (Some (row_id item)));;
  set_state (setEditValue (row_name item)).

Definition handleSave (st : State) (id : Z) : action unit :=
  if negb (nonempty (trim (editValue st))) then
    alert "Please enter a name"
  else
    set_state (setActionLoading (OnRow id));;
    finally
      (catch
         (api.put (ApiDataId id) {["name" := JStr (editValue st)]};;
          set_state (setEditingId None);;
          set_state (setEditValue "");;
          fetchData)
         (λ error,
            console_error "Error updating data:" error;;
            alert "Failed to update data"))
      (set_state (setActionLoading NoAction)).

Definition handleCancel : action unit :=
  set_state (setEditingId None);;
  set_state (setEditValue "").

Definition handleDelete (id : Z) : action unit :=
  ok ← confirm "Are you sure you want to delete this item?";
  if negb ok then Ret tt
  else
    set_state (setActionLoading (OnRow id));;
    finally
      (catch
         (api.delete (ApiDataId id);;
          fetchData)
         (λ error,
            console_error "Error deleting data:" error;;
            alert "Failed to delete data"))
      (set_state (setActionLoading NoAction)).

End Client.

(** ** The two components together

    The client's [fetch] reaches the routes of the data service, which
    reach the hosted table.  The world records what the user would see
    (the client's state), what is stored, and everything that happened. *)

Module System.

Import Client.

(** What the client gets when its request does not reach a route: [fetch]
    rejects with the runtime's own error (no network, a refused
    connection), or the [express.json()] middleware in front of the routes
    refuses a body over its size limit with 413 and a payload that is not
    the service's JSON.  (A body is kept as the object it spells, so a body
    that is not JSON, which the middleware answers 400, cannot be written
    here; the client sends [JSON.stringify] output only.) *)
Inductive Refusal : Type :=
| Rejects (e : Error)
| TooLarge.

(** What the environment contributes to one HTTP request.  A request that
    reaches a route has passed the JSON middleware: its body, if it has
    one, arrives parsed, and without a body [req.body] is [undefined]. *)
Record Env : Type := mkEnv {
  reachable : bool;       (* does the request reach a route *)
  oracle : Oracle;        (* the database during that request *)
  otherwise : Refusal     (* what happens when it does not *)
}.

Definition fair (t : Z) : Env :=
  {| reachable := true; oracle := {| fault := Healthy; now := t |};
     otherwise := Rejects (mkError "Failed to fetch") |}.

Inductive Event : Type :=
| Called (u : Update)
| Requested (m : Method) (e : Endpoint) (b : option (gmap string Value))
| Answered (m : Method) (e : Endpoint) (reply : FetchReply)
| Alerted (msg : string)
| Asked (msg : string) (answer : bool)
| Logged (label : string) (e : Error).

Record World : Type := mkWorld {
  ui : State;
  db : Database;
  net : nat → Env;        (* the environment of the n-th request *)
  served : nat;           (* requests made so far *)
  user_confirms : bool;   (* the user's answer to a confirm prompt *)
  trace : list Event
}.

(** One HTTP exchange: the request is routed, the handler runs against
    the table, its response travels back. *)
Definition http (e : Endpoint) (config : Options) (env : Env) (d : Database)
  : FetchReply * Database :=
  if reachable env then
    match route (method config) e with
    | Some h =>
        let req := {| params_id := params_of e; req_body := opt_body config |} in
        let '(out, d', _) := serve (h req) (oracle env) d in
        match out with
        | Returned r => (Responded (code r) (Some (body r)), d')
        | Threw _ => (Responded 500 None, d')
        end
    | None => (Responded 404 None, d)
    end
  else
    match otherwise env with
    | Rejects err => (Unreachable err, d)
    | TooLarge => (Responded 413 None, d)
    end.

Definition record (ev : Event) (w : World) : World :=
  {| ui := ui w; db := db w; net := net w; served := served w;
     user_confirms := user_confirms w; trace := trace w ++ [ev] |}.

Definition exchange (e : Endpoint) (config : Options) (w : World)
  : FetchReply * World :=
  let '(reply, d') := http e config (net w (served w)) (db w) in
  (reply,
   {| ui := ui w; db := d'; net := net w; served := Datatypes.S (served w);
      user_confirms := user_confirms w;
      trace := trace w ++ [Requested (method config) e (opt_body config);
                           Answered (method config) e reply] |}).

Definition commit (u : Update) (w : World) : World :=
  {| ui := apply u (ui w); db := db w; net := net w; served := served w;
     user_confirms := user_confirms w; trace := trace w ++ [Called u] |}.

Fixpoint play {A} (p : action A) (w : World) : Outcome A * World :=
  match p with
  | Ret a => (Returned a, w)
  | Throw e => (Threw e, w)
  | Vis ev k =>
      match ev in ClientE X return (X → action A) → _ with
      | Fetch e config => λ k,
          let '(reply, w') := exchange e config w in play (k reply) w'
      | SetState u => λ k, play (k tt) (commit u w)
      | Alert msg => λ k, play (k tt) (record (Alerted msg) w)
      | Confirm msg => λ k,
          play (k (user_confirms w)) (record (Asked msg (user_confirms w)) w)
      | ConsoleError label e => λ k, play (k tt) (record (Logged label e) w)
      end k
  end.

(** A world in which nothing has happened yet. *)
Definition start (st : State) (d : Database) (n : nat → Env) (yes : bool) : World :=
  {| ui := st; db := d; net := n; served := 0%nat; user_confirms := yes;
     trace := [] |}.

End System.

(** ** Vocabulary of the statements *)

Module Story.

Import Client System.

(** The message of the health check, by what the database call did. *)
Definition health_message (reply : Reply) : string :=
  match reply with
  | Resolved r =>
      match error r with
      | Some e => "Backend connected (DB: " +:+ message e +:+ ")"
      | None => "Backend and Supabase connected"
      end
  | Rejected _ => "Backend running"
  end.


(** The options [api.fetch] hands to [fetch] for a method and a body. *)
Definition sent (m : Method) (b : option (gmap string Value)) : Options :=
  {| method := m; opt_body := b;
     headers := ∅ ∪ {["Content-Type" := "application/json"]} |}.

(** Does [api.fetch] return on this reply (it throws otherwise)? *)
Definition api_ok (reply : FetchReply) : bool :=
  match reply with
  | Responded status (Some _) => (200 <=? status) && (status <=? 299)
  | _ => false
  end.

(** What [api.fetch] returns, or the error it throws. *)
Definition settled (reply : FetchReply) : Body + Error :=
  match reply with
  | Unreachable e => inr e
  | Responded status payload =>
      if (200 <=? status) && (status <=? 299) then
        match payload with
        | Some b => inl b
        | None => inr (mkError "Unexpected token in JSON")
        end
      else inr (mkError ("API Error: " +:+ pretty status))
  end.

(** The events of one full reload whose request is answered [reply]. *)
Definition reload_events (reply : FetchReply) : list Event :=
  [Called (setDataLoading true);
   Requested GET ApiData None;
   Answered GET ApiData reply] ++
  match settled reply with
  | inl b => [Called (setData (data_or_empty (body_data b)));
              Called (setShowData true)]
  | inr e => [Logged "Error fetching data:" e;
              Alerted "Failed to fetch data from database"]
  end ++
  [Called (setDataLoading false)].

(** The three mutations the user can start. *)
Inductive Mutation : Type :=
| AddNew
| SaveEdit (id : Z)
| DeleteItem (id : Z).

Definition handler_of (st : State) (mu : Mutation) : action unit :=
  match mu with
  | AddNew => handleAdd st
  | SaveEdit id => handleSave st id
  | DeleteItem id => handleDelete id
  end.

(** Is the request sent at all: the form's text passes the client's
    check, the user confirms the prompt. *)
Definition issued (st : State) (yes : bool) (mu : Mutation) : bool :=
  match mu with
  | AddNew => nonempty (trim (newName st))
  | SaveEdit _ => nonempty (trim (editValue st))
  | DeleteItem _ => yes
  end.

Definition method_of (mu : Mutation) : Method :=
  match mu with AddNew => POST | SaveEdit _ => PUT | DeleteItem _ => DELETE end.

Definition endpoint_of (mu : Mutation) : Endpoint :=
  match mu with
  | AddNew => ApiData
  | SaveEdit id | DeleteItem id => ApiDataId id
  end.

Definition body_of (st : State) (mu : Mutation) : option (gmap string Value) :=
  match mu with
  | AddNew => Some {["name" := JStr (newName st)]}
  | SaveEdit _ => Some {["name" := JStr (editValue st)]}
  | DeleteItem _ => None
  end.

Definition marker_of (mu : Mutation) : Marker :=
  match mu with
  | AddNew => Adding
  | SaveEdit id | DeleteItem id => OnRow id
  end.

Definition prompt_of (mu : Mutation) : list Event :=
  match mu with
  | DeleteItem _ => [Asked "Are you sure you want to delete this item?" true]
  | _ => []
  end.

(** The setter calls that drop the transient state of a mutation. *)
Definition clears_of (mu : Mutation) : list Update :=
  match mu with
  | AddNew => [setNewName ""; setShowAddForm false]
  | SaveEdit _ => [setEditingId None; setEditValue ""]
  | DeleteItem _ => []
  end.

(** An event that clears transient state: the edit-in-progress id, the
    edit text, the add form's text or its visibility. *)
Definition is_clear (ev : Event) : bool :=
  match ev with
  | Called (setEditingId None) => true
  | Called (setEditValue s) => String.eqb s ""
  | Called (setNewName s) => String.eqb s ""
  | Called (setShowAddForm false) => true
  | _ => false
  end.

(** An event of the reload's completion: its answer has arrived, or
    [fetchData] has reached the end of its [finally]. *)
Definition is_reload_done (ev : Event) : bool :=
  match ev with
  | Answered GET ApiData _ => true
  | Called (setDataLoading false) => true
  | _ => false
  end.

Definition is_reload_request (ev : Event) : bool :=
  match ev with
  | Requested GET ApiData _ => true
  | _ => false
  end.

(** Transient state is cleared only once the reload has completed. *)
Definition cleared_only_after_reload (tr : list Event) : Prop :=
  ∀ i c, tr !! i = Some c → is_clear c = true →
    ∃ j a, (j < i)%nat ∧ tr !! j = Some a ∧ is_reload_done a = true.

(** Transient state is cleared before the reload is requested. *)
Definition cleared_before_reload (tr : list Event) : Prop :=
  ∀ i c, tr !! i = Some c → is_clear c = true →
    ∃ j a, (i < j)%nat ∧ tr !! j = Some a ∧ is_reload_request a = true.

(** A table with one record, and the client while that record is being
    edited. *)
Definition demo_table : Database :=
  {| rows := {[1 := ("Widget", 100)]}; next_id := 2 |}.

Definition demo_editing : State :=
  {| backendStatus := "Backend and Supabase connected"; loading := false;
     data := DRows [mkRow 1 "Widget" 100]; dataLoading := false;
     showData := true; editingId := Some 1; editValue := "Gadget";
     showAddForm := false; newName := ""; actionLoading := NoAction |}.

(** A table whose records went in out of order. *)
Definition demo_shuffled : Database :=
  {| rows := <[3 := ("c", 30)]> (<[1 := ("a", 50)]> {[2 := ("b", 10)]});
     next_id := 4 |}.

End Story.

Import Story.

(** ** What the component renders

    The expressions of the JSX that decide what the user sees. *)

Module View.

Import Client.

#[global] Instance Marker_eq_dec : EqDecision Marker.
Proof. solve_decision. Defined.

(** [s.includes(sub)] *)
Fixpoint includes (s sub : string) : bool :=
  String.prefix sub s ||
  match s with
  | EmptyString => false
  | String _ s' => includes s' sub
  end.

(** The class of the status line:
    [backendStatus.includes('Connected') || backendStatus.includes('connected')
       ? 'status-ok' : 'status-error'] *)
Definition status_class (st : State) : string :=
  if includes (backendStatus st) "Connected" || includes (backendStatus st) "connected"
  then "status-ok" else "status-error".

(** The text of the status line: [loading ? 'Loading...' : backendStatus] *)
Definition status_text (st : State) : string :=
  if loading st then "Loading..." else backendStatus st.

(** [editingId === item.id]: is this row drawn with its input and its
    Save and Cancel buttons? *)
Definition in_edit_mode (st : State) (item : Row) : bool :=
  bool_decide (editingId st = Some (row_id item)).

(** The rows [data.map] goes over ([data] is an array in every state the
    component reaches). *)
Definition items (st : State) : list Row :=
  match data st with
  | DRows l => l
  | _ => []
  end.

(** [disabled={actionLoading === item.id}] on a row's Save and Delete
    buttons, [disabled={actionLoading === 'add'}] on the form's Save. *)
Definition row_disabled (st : State) (item : Row) : bool :=
  bool_decide (actionLoading st = OnRow (row_id item)).

Definition add_disabled (st : State) : bool :=
  bool_decide (actionLoading st = Adding).

End View.

(** ** What the user is told *)

Module Notices.

Import Client System Story.

(** The console label and the alert of a mutation whose request failed. *)
Definition failure_label (mu : Mutation) : string :=
  match mu with
  | AddNew => "Error adding data:"
  | SaveEdit _ => "Error updating data:"
  | DeleteItem _ => "Error deleting data:"
  end.

Definition failure_notice (mu : Mutation) : string :=
  match mu with
  | AddNew => "Failed to add data"
  | SaveEdit _ => "Failed to update data"
  | DeleteItem _ => "Failed to delete data"
  end.

(** The one event of a mutation that is not sent: the alert about the
    empty text, or the prompt the user declined. *)
Definition refusal (mu : Mutation) : Event :=
  match mu with
  | DeleteItem _ => Asked "Are you sure you want to delete this item?" false
  | _ => Alerted "Please enter a name"
  end.

(** A state with the in-flight marker reset and all else as it was. *)
Definition released (st : State) : State := apply (setActionLoading NoAction) st.

End Notices.

Import Notices.

(** ** Sample inputs *)

Module Samples.

Import Client System Story.

Definition sound : Oracle := {| fault := Healthy; now := 200 |}.
Definition broken : Oracle :=
  {| fault := Fails "connection refused" false; now := 200 |}.
Definition crashed : Oracle :=
  {| fault := Crashes "fetch failed" false; now := 200 |}.

(** A database that stores the row and then reports an error. *)
Definition late_error : Oracle :=
  {| fault := Fails "timeout" true; now := 200 |}.

(** The body [{name: s}]. *)
Definition named (v : Value) : option (gmap string Value) :=
  Some {["name" := v]}.

(** The add form open with a name typed, and with blanks typed. *)
Definition demo_adding : State :=
  {| backendStatus := "Backend and Supabase connected"; loading := false;
     data := DRows [mkRow 1 "Widget" 100]; dataLoading := false;
     showData := true; editingId := None; editValue := "";
     showAddForm := true; newName := "  Gadget "; actionLoading := NoAction |}.

Definition demo_blank : State :=
  {| backendStatus := "Backend and Supabase connected"; loading := false;
     data := DRows [mkRow 1 "Widget" 100]; dataLoading := false;
     showData := true; editingId := None; editValue := "";
     showAddForm := true; newName := "   "; actionLoading := NoAction |}.

(** A service that is reached while its database is down. *)
Definition degraded : nat → Env :=
  λ _, {| reachable := true; oracle := broken;
          otherwise := Rejects (mkError "fetch failed") |}.

End Samples.

Import Samples.

(** * Properties *)

(** ** The model on small inputs *)

Example trim_both_ends : trim "  ab c  " = "ab c".
Proof. reflexivity. Qed.

Example trim_line_ends : trim (String "009" (String "010" "x")) = "x".
Proof. reflexivity. Qed.

Example space_is_truthy : truthy (JStr " ") = true ∧ trim " " = "".
Proof. split; reflexivity. Qed.

Example falsy_values :
  truthy <$> [JUndefined; JNull; JBool false; JNum 0; JStr ""] =
    [false; false; false; false; false].
Proof. reflexivity. Qed.

Example scenario_create_list_update_delete :
  let o := {| fault := Healthy; now := 100 |} in
  let named n := Some ({["name" := JStr n]} : gmap string Value) in
  let '(r1, db1, _) := serve (post_api_data (mkRequest 0 (named "Widget"))) o Db.empty in
  let '(r2, db2, _) := serve (get_api_data (mkRequest 0 None)) o db1 in
  let '(r3, db3, _) := serve (put_api_data_id (mkRequest 1 (named "Gadget"))) o db2 in
  let '(r4, db4, _) := serve (delete_api_data_id (mkRequest 1 None)) o db3 in
  let '(r5, _, _) := serve (get_api_data (mkRequest 0 None)) o db4 in
  r1 = Returned (json (ok_data (DRow (mkRow 1 "Widget" 100)))) ∧
  r2 = Returned (json (ok_data (DRows [mkRow 1 "Widget" 100]))) ∧
  r3 = Returned (json (ok_data (DRow (mkRow 1 "Gadget" 100)))) ∧
  r4 = Returned (json (ok_message "Deleted successfully")) ∧
  r5 = Returned (json (ok_data (DRows []))).
Proof. by vm_compute. Qed.

(** A 500 does not say that nothing was written: a database that stores
    the row and then reports an error leaves it stored. *)
Example error_after_commit :
  let '(out, db', _) :=
    serve (post_api_data (mkRequest 0 (named (JStr "Gadget")))) late_error demo_table in
  out = Returned (status_json 500 (error_message "timeout")) ∧
  rows db' !! 2 = Some ("Gadget", 200).
Proof. by vm_compute. Qed.

(** ** Validation of [name] *)

Section Validation.
Context {S : Type} (answer : Query → S → Reply * S).

(** A falsy [name] ends both handlers at once: the program is the 400
    response, with no effect node in it. *)
Lemma post_falsy_is_400 (req : Request) (o : gmap string Value) :
  req_body req = Some o →
  truthy (default JUndefined (o !! "name")) = false →
  post_api_data req = Ret (status_json 400 (error_message "Name is required")).
Proof.
  intros Hb Hf. unfold post_api_data. rewrite Hb. simpl. by rewrite Hf.
Qed.

Lemma put_falsy_is_400 (req : Request) (o : gmap string Value) :
  req_body req = Some o →
  truthy (default JUndefined (o !! "name")) = false →
  put_api_data_id req = Ret (status_json 400 (error_message "Name is required")).
Proof.
  intros Hb Hf. unfold put_api_data_id. rewrite Hb. simpl. by rewrite Hf.
Qed.

(** Without a body at all the destructuring throws, and the [catch] turns
    that into a 500; still no call is made. *)
Lemma post_without_body_is_500 (req : Request) (s : S) :
  req_body req = None →
  run answer (post_api_data req) s =
    (Returned (status_json 500 (error_message
       "Cannot destructure property 'name' of 'req.body' as it is undefined.")),
     s, no_log).
Proof. intros Hb. unfold post_api_data, run. by rewrite Hb. Qed.

(** A truthy [name] sends the statement with that very value. *)
Lemma post_truthy_calls (req : Request) (o : gmap string Value) (v : Value) (s : S) :
  req_body req = Some o → o !! "name" = Some v → truthy v = true →
  calls (run answer (post_api_data req) s).2 = [InsertSelect v].
Proof.
  intros Hb Hn Ht. unfold post_api_data, run. rewrite Hb. simpl.
  rewrite Hn. simpl. rewrite Ht. simpl.
  destruct (answer (InsertSelect v) s) as [[r|e] s']; simpl; [|done].
  destruct (error r); simpl; [done|].
  by destruct (data r) as [[|]|].
Qed.

Lemma put_truthy_calls (req : Request) (o : gmap string Value) (v : Value) (s : S) :
  req_body req = Some o → o !! "name" = Some v → truthy v = true →
  calls (run answer (put_api_data_id req) s).2 = [UpdateEqSelect v (params_id req)].
Proof.
  intros Hb Hn Ht. unfold put_api_data_id, run. rewrite Hb. simpl.
  rewrite Hn. simpl. rewrite Ht. simpl.
  destruct (answer (UpdateEqSelect v (params_id req)) s) as [[r|e] s']; simpl; [|done].
  destruct (error r); simpl; [done|].
  by destruct (data r) as [[|]|].
Qed.
End Validation.

(** C2, at the input where the code fails it.  A create or an update that
    arrives without a parsed body ([req.body] is [undefined]) is a request
    with a missing [name].  The destructuring throws inside the [try] and
    the [catch] answers 500 with the TypeError's text, where the claim asks
    for 400 "Name is required".  No database call is made and the
    database's state is what it was. *)
Theorem missing_body_is_500_not_400
  {S : Type} (answer : Query → S → Reply * S) (s : S) (id : Z) :
  let req := {| params_id := id; req_body := None |} in
  let thrown :=
    {| code := 500;
       body := {| body_status := "error";
                  body_message :=
                    Some "Cannot destructure property 'name' of 'req.body' as it is undefined.";
                  body_data := DUndefined |} |} in
  run answer (post_api_data req) s = (Returned thrown, s, no_log) ∧
  run answer (put_api_data_id req) s = (Returned thrown, s, no_log) ∧
  code thrown ≠ 400.
Proof. simpl. repeat split. done. Qed.

(** X25. With a body that is an object: a create or an update whose body
    has no [name], or an empty one, is answered 400 with status "error";
    whatever the database is, no call reaches it and its state is what it
    was. *)
Theorem missing_name_rejected_before_database
  {S : Type} (answer : Query → S → Reply * S) (s : S)
  (req : Request) (o : gmap string Value) :
  req_body req = Some o →
  o !! "name" = None ∨ o !! "name" = Some (JStr "") →
  let rejected := {| code := 400;
                     body := {| body_status := "error";
                                body_message := Some "Name is required";
                                body_data := DUndefined |} |} in
  run answer (post_api_data req) s = (Returned rejected, s, no_log) ∧
  run answer (put_api_data_id req) s = (Returned rejected, s, no_log).
Proof.
  intros Hb Hn.
  assert (truthy (default JUndefined (o !! "name")) = false) as Hf
    by (destruct Hn as [-> | ->]; done).
  simpl. by rewrite (post_falsy_is_400 req o), (put_falsy_is_400 req o).
Qed.

Lemma missing_name_rejected_before_database_witness :
  let req := {| params_id := 1; req_body := Some ∅ |} in
  let rejected := status_json 400 (error_message "Name is required") in
  serve (post_api_data req) {| fault := Healthy; now := 7 |} Db.empty
    = (Returned rejected, Db.empty, no_log) ∧
  serve (put_api_data_id req) {| fault := Healthy; now := 7 |} Db.empty
    = (Returned rejected, Db.empty, no_log).
Proof.
  apply (missing_name_rejected_before_database
           (λ q, Db.exec q {| fault := Healthy; now := 7 |}) Db.empty
           {| params_id := 1; req_body := Some ∅ |} ∅).
  - reflexivity.
  - left. reflexivity.
Defined.

(** ** The health check *)

(** C3. The health check answers 200 with status "ok" whatever the database
    call does, also when it resolves with an error or rejects; the error
    shows in the message text only. *)
Theorem health_check_always_ok
  {S : Type} (answer : Query → S → Reply * S) (s : S) (req : Request) :
  (run answer (get_api_health req) s).1.1 =
    Returned {| code := 200;
                body := {| body_status := "ok";
                           body_message := Some (health_message (answer SelectCount s).1);
                           body_data := DUndefined |} |}.
Proof.
  unfold get_api_health, run. simpl.
  destruct (answer SelectCount s) as [[r|e] s']; simpl; [|done].
  by destruct (error r).
Qed.

(** ** Upstream errors *)


(** ** The table *)

Section Table.
Implicit Types (db : Database) (r : Row) (l : list Row).

#[local] Instance to_row_inj : Inj (=) (=) to_row.
Proof. intros [i [n c]] [i' [n' c']] H. by inversion H. Qed.

Lemma elem_of_all_rows db r :
  r ∈ all_rows db ↔ rows db !! row_id r = Some (row_name r, row_created_at r).
Proof.
  unfold all_rows. rewrite list_elem_of_fmap. split.
  - intros [[i [n c]] [-> Hin]]. by apply elem_of_map_to_list in Hin.
  - intros H. exists (row_id r, (row_name r, row_created_at r)). split.
    + by destruct r.
    + by apply elem_of_map_to_list.
Qed.

Lemma NoDup_all_rows db : NoDup (all_rows db).
Proof. apply (NoDup_fmap_2 _), NoDup_map_to_list. Qed.

Lemma NoDup_ids db : NoDup (row_id <$> all_rows db).
Proof.
  unfold all_rows. rewrite <-list_fmap_compose.
  apply (NoDup_fst_map_to_list (rows db)).
Qed.

#[local] Instance by_id_total : Total (row_le ColId true).
Proof. intros a b. unfold row_le, key_le. simpl. lia. Qed.

#[local] Instance by_id_trans : Transitive (row_le ColId true).
Proof. intros a b c. unfold row_le, key_le. simpl. lia. Qed.

(** Sorted on a key that does not repeat is strictly ascending. *)
Lemma sorted_distinct_ids_ascending l :
  NoDup (row_id <$> l) →
  StronglySorted (row_le ColId true) l →
  StronglySorted (λ a b, row_id a < row_id b) l.
Proof.
  induction 2 as [|x l Hs IH Hall]; [constructor|].
  rewrite fmap_cons in H. apply NoDup_cons in H as [Hx Hl].
  constructor; [by apply IH|].
  apply Forall_forall. intros y Hy.
  rewrite Forall_forall in Hall. specialize (Hall y Hy).
  unfold row_le, key_le in Hall. simpl in Hall.
  assert (row_id x ≠ row_id y); [|lia].
  intros Heq. apply Hx. rewrite Heq. by apply list_elem_of_fmap_2.
Qed.

Lemma select_order_by_id db :
  let l := merge_sort (row_le ColId true) (all_rows db) in
  l ≡ₚ all_rows db ∧ StronglySorted (λ a b, row_id a < row_id b) l.
Proof.
  simpl. split; [apply merge_sort_Permutation|].
  apply sorted_distinct_ids_ascending.
  - rewrite merge_sort_Permutation. apply NoDup_ids.
  - apply (StronglySorted_merge_sort _).
Qed.

(** A duplicate-free list whose members are all [a], and that has [a]. *)
Lemma NoDup_only_one {A} (l : list A) (a : A) :
  NoDup l → a ∈ l → (∀ x, x ∈ l → x = a) → l = [a].
Proof.
  intros Hnd Ha Hall. destruct l as [|x l]; [by apply elem_of_nil in Ha|].
  assert (x = a) as -> by (apply Hall; left).
  apply NoDup_cons in Hnd as [Hx _].
  destruct l as [|y l]; [done|].
  assert (y = a) as -> by (apply Hall; right; left).
  exfalso. apply Hx. left.
Qed.
End Table.

(** ** Requests served against the table *)

Section Served.
Implicit Types (db : Database) (o : Oracle) (req : Request).

(** A list request is answered 200 only with the table's rows in the
    order the statement asks for, and changes nothing. *)
Lemma list_200_inv db o req resp db' lg :
  serve (get_api_data req) o db = (Returned resp, db', lg) →
  code resp = 200 →
  body_data (body resp) = DRows (merge_sort (row_le ColId true) (all_rows db)) ∧
  db' = db.
Proof.
  unfold serve, run, get_api_data, Db.exec. simpl.
  destruct (fault o); simpl; intros [= <- <- <-]; simpl; done.
Qed.

(** A create is answered 200 only when the row went in under the next id
    of the sequence, which was free, with the database's time. *)
Lemma create_200_inv db o req b x resp db' lg :
  req_body req = Some b → b !! "name" = Some (JStr x) →
  serve (post_api_data req) o db = (Returned resp, db', lg) →
  code resp = 200 →
  x ≠ "" ∧ fault o = Healthy ∧ rows db !! next_id db = None ∧
  body_data (body resp) = DRow (mkRow (next_id db) x (now o)) ∧
  db' = {| rows := <[next_id db := (x, now o)]> (rows db);
           next_id := next_id db + 1 |}.
Proof.
  intros Hb Hn. unfold serve, run, post_api_data, Db.exec. rewrite Hb. simpl.
  rewrite Hn. simpl. destruct (String.eqb_spec x "") as [->|Hx]; simpl.
  { by intros [= <- <- <-]. }
  destruct (fault o); simpl; try by intros [= <- <- <-].
  destruct (rows db !! next_id db); simpl; intros [= <- <- <-]; simpl; done.
Qed.

(** An update is answered 200 only when the database ran the statement:
    the row of that id, if there is one, keeps its [created_at] and takes
    the new name. *)
Lemma update_200_inv db o req b y resp db' lg :
  req_body req = Some b → b !! "name" = Some (JStr y) →
  serve (put_api_data_id req) o db = (Returned resp, db', lg) →
  code resp = 200 →
  y ≠ "" ∧ fault o = Healthy ∧ next_id db' = next_id db ∧
  match rows db !! params_id req with
  | Some (_, created) =>
      body_data (body resp) = DRow (mkRow (params_id req) y created) ∧
      rows db' = <[params_id req := (y, created)]> (rows db)
  | None => body_data (body resp) = DUndefined ∧ rows db' = rows db
  end.
Proof.
  intros Hb Hn. unfold serve, run, put_api_data_id, Db.exec. rewrite Hb. simpl.
  rewrite Hn. simpl. destruct (String.eqb_spec y "") as [->|Hy]; simpl.
  { by intros [= <- <- <-]. }
  destruct (fault o); simpl; try by intros [= <- <- <-].
  destruct (rows db !! params_id req) as [[n c]|]; simpl;
    intros [= <- <- <-]; simpl; done.
Qed.

Lemma delete_healthy db o req :
  fault o = Healthy →
  serve (delete_api_data_id req) o db =
    (Returned (json (ok_message "Deleted successfully")),
     {| rows := delete (params_id req) (rows db); next_id := next_id db |},
     {| calls := [DeleteEq (params_id req)]; lines := [] |}).
Proof.
  intros Hf. unfold serve, run, delete_api_data_id, Db.exec. simpl.
  by rewrite Hf.
Qed.
End Served.

(** C4. A list request that succeeds returns every stored record, ordered
    by strictly ascending [id], in whatever order the table holds them. *)
Theorem list_is_ascending_by_id
  (db : Database) (o : Oracle) (req : Request) (resp : Response) :
  (serve (get_api_data req) o db).1.1 = Returned resp →
  code resp = 200 →
  body_status (body resp) = "ok" ∧
  ∃ l, body_data (body resp) = DRows l ∧
       l ≡ₚ all_rows db ∧
       StronglySorted (λ a b, row_id a < row_id b) l.
Proof.
  intros Hrun Hcode.
  destruct (serve (get_api_data req) o db) as [[out db'] lg] eqn:Hs.
  simpl in Hrun. subst out.
  destruct (list_200_inv _ _ _ _ _ _ Hs Hcode) as [Hd _]. split.
  - revert Hs Hcode. unfold serve, run, get_api_data, Db.exec. simpl.
    destruct (fault o); simpl; intros [= <- <- <-]; simpl; done.
  - eexists. split; [exact Hd|]. apply select_order_by_id.
Qed.

(** C5. Deleting the same [id] twice in a row, the database answering both
    calls, gives 200 with status "ok" and message "Deleted successfully"
    both times; the second delete leaves the table as the first left it,
    and deleting an [id] that is not stored leaves the table as it was. *)
Theorem delete_is_idempotent
  (db : Database) (o1 o2 : Oracle) (req : Request) :
  fault o1 = Healthy → fault o2 = Healthy →
  let deleted := {| code := 200;
                    body := {| body_status := "ok";
                               body_message := Some "Deleted successfully";
                               body_data := DUndefined |} |} in
  let first := serve (delete_api_data_id req) o1 db in
  let second := serve (delete_api_data_id req) o2 first.1.2 in
  first.1.1 = Returned deleted ∧
  second.1.1 = Returned deleted ∧
  second.1.2 = first.1.2 ∧
  (rows db !! params_id req = None → first.1.2 = db).
Proof.
  intros H1 H2. simpl.
  rewrite (delete_healthy db o1 req H1). simpl.
  rewrite (delete_healthy _ o2 req H2). simpl.
  repeat split.
  - by rewrite delete_delete_eq.
  - intros Habs. rewrite (delete_id _ _ Habs). by destruct db.
Qed.

(** C6. After a successful create with name [x] and a successful update of
    the returned [id] with name [y], a successful list shows exactly one
    record with that [id]; its name is [y] and its [created_at] is the one
    the create returned, the database's time at the insertion. *)
Theorem create_update_list_round_trip
  (db db1 db2 db3 : Database) (o1 o2 o3 : Oracle) (lg1 lg2 lg3 : Log)
  (p : Z) (b1 b2 : gmap string Value) (x y : string)
  (resp1 resp2 resp3 : Response) (r : Row) (req3 : Request) :
  b1 !! "name" = Some (JStr x) →
  b2 !! "name" = Some (JStr y) →
  serve (post_api_data {| params_id := p; req_body := Some b1 |}) o1 db
    = (Returned resp1, db1, lg1) →
  code resp1 = 200 →
  body_data (body resp1) = DRow r →
  serve (put_api_data_id {| params_id := row_id r; req_body := Some b2 |}) o2 db1
    = (Returned resp2, db2, lg2) →
  code resp2 = 200 →
  serve (get_api_data req3) o3 db2 = (Returned resp3, db3, lg3) →
  code resp3 = 200 →
  row_name r = x ∧ row_created_at r = now o1 ∧
  ∃ l, body_data (body resp3) = DRows l ∧
       filter (λ r', row_id r' = row_id r) l =
         [{| row_id := row_id r; row_name := y;
             row_created_at := row_created_at r |}].
Proof.
  intros Hx Hy Hpost Hc1 Hr Hput Hc2 Hget Hc3.
  destruct (create_200_inv _ _ (mkRequest p (Some b1)) _ _ _ _ _ eq_refl Hx Hpost Hc1)
    as (_ & _ & Hfree & Hd1 & ->).
  rewrite Hd1 in Hr. injection Hr as <-. simpl in *.
  destruct (update_200_inv _ _ (mkRequest _ (Some b2)) _ _ _ _ _ eq_refl Hy Hput Hc2)
    as (_ & _ & _ & Hupd).
  simpl in Hupd. rewrite lookup_insert_eq in Hupd. destruct Hupd as [_ Hrows2].
  rewrite insert_insert_eq in Hrows2.
  destruct (list_200_inv _ _ _ _ _ _ Hget Hc3) as [Hd3 _].
  do 2 (split; [done|]). eexists. split; [exact Hd3|].
  set (row := {| row_id := next_id db; row_name := y; row_created_at := now o1 |}).
  assert (∀ r', r' ∈ merge_sort (row_le ColId true) (all_rows db2) ↔
                rows db2 !! row_id r' = Some (row_name r', row_created_at r'))
    as Hmem.
  { intros r'. rewrite merge_sort_Permutation. apply elem_of_all_rows. }
  apply NoDup_only_one.
  - apply NoDup_filter. rewrite merge_sort_Permutation. apply NoDup_all_rows.
  - apply list_elem_of_filter. split; [done|].
    apply Hmem. rewrite Hrows2. simpl. apply lookup_insert_eq.
  - intros r' [Hid Hin]%list_elem_of_filter.
    apply Hmem in Hin. rewrite Hrows2, Hid, lookup_insert_eq in Hin.
    destruct r' as [i n c]. simpl in *. unfold row. congruence.
Qed.

(** C8. An update with a truthy [name] of an [id] that is not stored, when
    the database call resolves without an error, is answered 200 with status
    "ok" and no [data] (the first element of an empty array) and changes
    nothing; an update of a stored [id] has the same code and status. *)
Theorem update_of_absent_id_is_ok
  (db : Database) (o : Oracle) (req : Request) (b : gmap string Value)
  (v : Value) (r : Result) :
  req_body req = Some b → b !! "name" = Some v → truthy v = true →
  rows db !! params_id req = None →
  (Db.exec (UpdateEqSelect v (params_id req)) o db).1 = Resolved r →
  error r = None →
  serve (put_api_data_id req) o db =
    (Returned {| code := 200;
                 body := {| body_status := "ok"; body_message := None;
                            body_data := DUndefined |} |},
     db,
     {| calls := [UpdateEqSelect v (params_id req)]; lines := [] |}) ∧
  ∀ db2 r2,
    is_Some (rows db2 !! params_id req) →
    (Db.exec (UpdateEqSelect v (params_id req)) o db2).1 = Resolved r2 →
    error r2 = None →
    ∃ row, (serve (put_api_data_id req) o db2).1.1 =
      Returned {| code := 200;
                  body := {| body_status := "ok"; body_message := None;
                             body_data := DRow row |} |}.
Proof.
  intros Hb Hn Ht Habs Hex Herr. split.
  - revert Hex. unfold serve, run, put_api_data_id, Db.exec. rewrite Hb. simpl.
    rewrite Hn. simpl. rewrite Ht. simpl.
    destruct (fault o); simpl.
    + rewrite Habs. destruct (column_text v); simpl; [done|].
      intros [= <-]. done.
    + intros [= <-]. done.
    + done.
  - intros db2 r2 [[n c] Hin]. unfold serve, run, put_api_data_id, Db.exec.
    rewrite Hb. simpl. rewrite Hn. simpl. rewrite Ht. simpl.
    destruct (fault o); simpl.
    + rewrite Hin. destruct (column_text v); simpl; [by eexists|].
      intros [= <-]. done.
    + intros [= <-]. done.
    + done.
Qed.

(** C9. The check on [name] is truthiness, not emptiness after trimming: a
    name of white space only passes it on create and on update, the
    statement sent carries the name as it came, and a sound database
    stores a record under it. *)
Theorem whitespace_only_name_is_stored
  (s : string) (req : Request) (b : gmap string Value) :
  s ≠ "" → trim s = "" →
  req_body req = Some b → b !! "name" = Some (JStr s) →
  truthy (JStr s) = true ∧
  (∀ (S : Type) (answer : Query → S → Reply * S) (st : S),
     calls (run answer (post_api_data req) st).2 = [InsertSelect (JStr s)] ∧
     calls (run answer (put_api_data_id req) st).2 =
       [UpdateEqSelect (JStr s) (params_id req)]) ∧
  (∀ db o, fault o = Healthy → rows db !! next_id db = None →
     let '(out, db', _) := serve (post_api_data req) o db in
     out = Returned (json (ok_data (DRow (mkRow (next_id db) s (now o))))) ∧
     rows db' !! next_id db = Some (s, now o)) ∧
  (∀ db o old created, fault o = Healthy →
     rows db !! params_id req = Some (old, created) →
     let '(out, db', _) := serve (put_api_data_id req) o db in
     out = Returned (json (ok_data (DRow (mkRow (params_id req) s created)))) ∧
     rows db' !! params_id req = Some (s, created)).
Proof.
  intros Hne _ Hb Hn.
  assert (truthy (JStr s) = true) as Ht.
  { simpl. by destruct (String.eqb_spec s ""). }
  split; [done|]. split; [|split].
  - intros S answer st. split.
    + by apply (post_truthy_calls answer req b).
    + by apply (put_truthy_calls answer req b).
  - intros db o Hf Hfree. unfold serve, run, post_api_data, Db.exec.
    rewrite Hb. simpl. rewrite Hn. simpl in *. rewrite Ht. simpl.
    rewrite Hf. simpl. rewrite Hfree. simpl. split; [done|].
    apply lookup_insert_eq.
  - intros db o old created Hf Hin. unfold serve, run, put_api_data_id, Db.exec.
    rewrite Hb. simpl. rewrite Hn. simpl in *. rewrite Ht. simpl.
    rewrite Hf. simpl. rewrite Hin. simpl. split; [done|].
    apply lookup_insert_eq.
Qed.

(** ** The client *)

Import Client System.

Section Traces.
Implicit Types (w : World) (u : Update) (ev : Event).

Lemma exchange_unfold e config w :
  exchange e config w =
    ((http e config (net w (served w)) (db w)).1,
     {| ui := ui w; db := (http e config (net w (served w)) (db w)).2;
        net := net w; served := Datatypes.S (served w);
        user_confirms := user_confirms w;
        trace := trace w ++ [Requested (method config) e (opt_body config);
                             Answered (method config) e
                               (http e config (net w (served w)) (db w)).1] |}).
Proof. unfold exchange. by destruct (http _ _ _ _). Qed.

Lemma api_ok_inv reply :
  api_ok reply = true →
  ∃ status b, reply = Responded status (Some b) ∧
              (200 <=? status) && (status <=? 299) = true.
Proof. destruct reply as [status [b|]|e]; simpl; try done. eauto. Qed.
End Traces.

#[local] Arguments exchange : simpl never.
#[local] Arguments http : simpl never.

(** One step of symbolic execution past a request. *)
Ltac pass_request := rewrite exchange_unfold; simpl.

(** The reload at the end of a handler, by cases on its answer. *)
Ltac finish_reload :=
  pass_request; unfold reload_events, settled;
  match goal with
  | |- context [(http ?e ?c ?env ?d).1] =>
      destruct (http e c env d).1 as [code [payload|]|err]; simpl;
      try destruct ((200 <=? code) && (code <=? 299)); reflexivity
  end.

(** The events of a handler whose mutation request succeeds. *)
Lemma successful_mutation_trace
  (st : State) (d : Database) (n : nat → Env) (yes : bool) (mu : Mutation) :
  let first := http (endpoint_of mu) (sent (method_of mu) (body_of st mu)) (n 0%nat) d in
  let second := http ApiData (sent GET None) (n 1%nat) first.2 in
  issued st yes mu = true →
  api_ok first.1 = true →
  trace (play (handler_of st mu) (start st d n yes)).2 =
    prompt_of mu ++
    [Called (setActionLoading (marker_of mu));
     Requested (method_of mu) (endpoint_of mu) (body_of st mu);
     Answered (method_of mu) (endpoint_of mu) first.1] ++
    (Called <$> clears_of mu) ++
    reload_events second.1 ++
    [Called (setActionLoading NoAction)].
Proof.
  intros first second Hissued Hok. subst first second.
  apply api_ok_inv in Hok as (status & b & Hreply & Hrange).
  destruct mu as [|id|id]; simpl in *.
  - unfold handleAdd. rewrite Hissued. simpl. pass_request.
    unfold sent in *. rewrite Hreply. simpl. rewrite Hrange. simpl.
    finish_reload.
  - unfold handleSave. rewrite Hissued. simpl. pass_request.
    unfold sent in *. rewrite Hreply. simpl. rewrite Hrange. simpl.
    finish_reload.
  - subst yes. unfold handleDelete. simpl. pass_request.
    unfold sent in *. rewrite Hreply. simpl. rewrite Hrange. simpl.
    finish_reload.
Qed.

(** In a trace of that shape every clearing call stands before the
    reload's request. *)
Lemma shape_cleared_before_reload
  (mu : Mutation) (b : option (gmap string Value)) (r1 r2 : FetchReply) :
  cleared_before_reload
    (prompt_of mu ++
     [Called (setActionLoading (marker_of mu));
      Requested (method_of mu) (endpoint_of mu) b;
      Answered (method_of mu) (endpoint_of mu) r1] ++
     (Called <$> clears_of mu) ++
     reload_events r2 ++
     [Called (setActionLoading NoAction)]).
Proof.
  intros i c Hi Hc. unfold reload_events in Hi.
  destruct mu, (settled r2); simpl in Hi;
    do 12 (destruct i as [|i]; simpl in Hi;
           [first [discriminate Hi
                  |injection Hi as <-; simpl in Hc; try discriminate Hc;
                   exists 6%nat; eexists; (split; [lia|]); split; reflexivity]
           |]);
    discriminate Hi.
Qed.

(** C1, amended. When the mutation request of a create, an update or a
    delete succeeds, the handler's events are, in this order: the in-flight
    marker set, the request and its answer, the transient state cleared
    (the add form's text and visibility on create, the edit-in-progress id
    and text on update, nothing on delete), one full reload, and last the
    marker reset.  Every clearing call comes before the reload is
    requested. *)
Theorem mutate_then_clear_then_reload
  (st : State) (d : Database) (n : nat → Env) (yes : bool) (mu : Mutation) :
  let first := http (endpoint_of mu) (sent (method_of mu) (body_of st mu)) (n 0%nat) d in
  let second := http ApiData (sent GET None) (n 1%nat) first.2 in
  let tr := trace (play (handler_of st mu) (start st d n yes)).2 in
  issued st yes mu = true →
  api_ok first.1 = true →
  tr =
    prompt_of mu ++
    [Called (setActionLoading (marker_of mu));
     Requested (method_of mu) (endpoint_of mu) (body_of st mu);
     Answered (method_of mu) (endpoint_of mu) first.1] ++
    (Called <$> clears_of mu) ++
    reload_events second.1 ++
    [Called (setActionLoading NoAction)] ∧
  cleared_before_reload tr.
Proof.
  intros first second tr Hissued Hok.
  pose proof (successful_mutation_trace st d n yes mu Hissued Hok) as Htr.
  split; [exact Htr|].
  subst tr. rewrite Htr. apply shape_cleared_before_reload.
Qed.

(** C1, as stated, fails: on a successful update the edit-in-progress id is
    cleared at the fourth event of the handler, when no event of the
    reload has happened yet. *)
Lemma save_clears_before_reload :
  api_ok (http (ApiDataId 1) (sent PUT (Some {["name" := JStr "Gadget"]}))
            (fair 200) demo_table).1 = true ∧
  ¬ cleared_only_after_reload
      (trace (play (handleSave demo_editing 1)
                (start demo_editing demo_table (λ _, fair 200) true)).2).
Proof.
  split; [by vm_compute|].
  intros H.
  destruct (H 3%nat (Called (setEditingId None))) as (j & a & Hj & Ha & Hdone);
    [by vm_compute..|].
  destruct j as [|[|[|j]]]; [| | |lia]; vm_compute in Ha;
    injection Ha as <-; discriminate.
Qed.

Section EndToEnd.
Implicit Types (d : Database) (env : Env).

Lemma trim_empty_of_empty s : nonempty (trim s) = true → s ≠ "".
Proof. by intros H ->. Qed.

Lemma http_list_keeps_table env d config :
  method config = GET →
  (http ApiData config env d).2 = d.
Proof.
  intros Hm. unfold http.
  destruct (reachable env); [|by destruct (otherwise env)]. rewrite Hm. simpl.
  unfold serve, Backend.run, get_api_data, Db.exec. simpl.
  by destruct (fault (oracle env)) as [|? []|? []].
Qed.

Lemma http_create_stores env d config b s :
  method config = POST → opt_body config = Some b →
  b !! "name" = Some (JStr s) → s ≠ "" →
  reachable env = true → fault (oracle env) = Healthy →
  rows d !! next_id d = None →
  http ApiData config env d =
    (Responded 200 (Some (ok_data (DRow (mkRow (next_id d) s (now (oracle env)))))),
     {| rows := <[next_id d := (s, now (oracle env))]> (rows d);
        next_id := next_id d + 1 |}).
Proof.
  intros Hm Hc Hb Hs Hr Hf Hfree. unfold http. rewrite Hr, Hm. simpl.
  unfold serve, Backend.run, post_api_data, Db.exec. simpl. rewrite Hc. simpl.
  rewrite Hb. simpl.
  destruct (String.eqb_spec s "") as [|_]; [done|]. simpl.
  rewrite Hf. simpl. by rewrite Hfree.
Qed.
End EndToEnd.

(** C10. The add form checks its text after trimming but sends it as typed:
    when the trimmed text is not empty the request is a POST to /api/data
    whose body holds the untrimmed text, and a reachable service with a
    sound database stores a record under exactly that text; when it is
    empty the user is alerted and nothing is sent or stored. *)
Theorem add_form_sends_untrimmed_text
  (st : State) (d : Database) (n : nat → Env) (yes : bool) :
  let w' := (play (handleAdd st) (start st d n yes)).2 in
  if nonempty (trim (newName st)) then
    trace w' !! 1%nat =
      Some (Requested POST ApiData (Some {["name" := JStr (newName st)]})) ∧
    (reachable (n 0%nat) = true → fault (oracle (n 0%nat)) = Healthy →
     rows d !! next_id d = None →
     rows (db w') !! next_id d = Some (newName st, now (oracle (n 0%nat))))
  else
    trace w' = [Alerted "Please enter a name"] ∧ db w' = d.
Proof.
  simpl. unfold handleAdd.
  destruct (nonempty (trim (newName st))) eqn:Hvalid; simpl; [|done].
  pass_request. split.
  - destruct (http _ _ _ _).1 as [code [payload|]|err]; simpl;
      try destruct ((200 <=? code) && (code <=? 299)); simpl;
      try pass_request;
      repeat match goal with
      | |- context [match ?x with _ => _ end] => destruct x; simpl
      end; reflexivity.
  - intros Hr Hf Hfree.
    rewrite (http_create_stores (n 0%nat) d _ {["name" := JStr (newName st)]}
               (newName st)); simpl;
      [|done|done|apply lookup_singleton_eq|by apply trim_empty_of_empty|done..].
    pass_request. rewrite http_list_keeps_table by done.
    destruct (http _ _ _ _).1 as [code [payload|]|err]; simpl;
      try destruct ((200 <=? code) && (code <=? 299)); simpl;
      apply lookup_insert_eq.
Qed.

(** A name typed with spaces around it goes in with them. *)
Example add_keeps_surrounding_space :
  let st := {| backendStatus := "Backend and Supabase connected";
               loading := false; data := DRows [mkRow 1 "Widget" 100];
               dataLoading := false; showData := true; editingId := None;
               editValue := ""; showAddForm := true; newName := "  Gadget ";
               actionLoading := NoAction |} in
  let w' := (play (handleAdd st) (start st demo_table (λ _, fair 200) true)).2 in
  trim (newName st) = "Gadget" ∧
  rows (db w') !! 2 = Some ("  Gadget ", 200) ∧
  newName (ui w') = "" ∧ showAddForm (ui w') = false ∧
  data (ui w') = DRows [mkRow 1 "Widget" 100; mkRow 2 "  Gadget " 200].
Proof. by vm_compute. Qed.

(** ** The statements at concrete inputs *)


Lemma list_is_ascending_by_id_witness :
  ∃ l, DRows [mkRow 1 "a" 50; mkRow 2 "b" 10; mkRow 3 "c" 30] = DRows l ∧
       l ≡ₚ all_rows demo_shuffled ∧
       StronglySorted (λ a b, row_id a < row_id b) l.
Proof.
  apply (list_is_ascending_by_id demo_shuffled
           {| fault := Healthy; now := 7 |}
           {| params_id := 0; req_body := None |}
           (json (ok_data (DRows [mkRow 1 "a" 50; mkRow 2 "b" 10; mkRow 3 "c" 30])))).
  - vm_compute. reflexivity.
  - reflexivity.
Defined.

Lemma delete_is_idempotent_witness :
  let o := {| fault := Healthy; now := 7 |} in
  let req := {| params_id := 1; req_body := None |} in
  let deleted := json (ok_message "Deleted successfully") in
  let first := serve (delete_api_data_id req) o demo_table in
  let second := serve (delete_api_data_id req) o first.1.2 in
  first.1.1 = Returned deleted ∧
  second.1.1 = Returned deleted ∧
  second.1.2 = first.1.2 ∧
  (rows demo_table !! 1 = None → first.1.2 = demo_table).
Proof.
  apply (delete_is_idempotent demo_table
           {| fault := Healthy; now := 7 |} {| fault := Healthy; now := 7 |}
           {| params_id := 1; req_body := None |}); reflexivity.
Defined.

Lemma create_update_list_round_trip_witness :
  ∃ l, DRows [mkRow 1 "Widget" 100; mkRow 2 "Y" 200] = DRows l ∧
       filter (λ r', row_id r' = 2) l = [mkRow 2 "Y" 200].
Proof.
  apply (create_update_list_round_trip
           demo_table
           {| rows := <[2 := ("X", 200)]> (rows demo_table); next_id := 3 |}
           {| rows := <[2 := ("Y", 200)]> (<[2 := ("X", 200)]> (rows demo_table));
              next_id := 3 |}
           {| rows := <[2 := ("Y", 200)]> (<[2 := ("X", 200)]> (rows demo_table));
              next_id := 3 |}
           {| fault := Healthy; now := 200 |}
           {| fault := Healthy; now := 300 |}
           {| fault := Healthy; now := 400 |}
           {| calls := [InsertSelect (JStr "X")]; lines := [] |}
           {| calls := [UpdateEqSelect (JStr "Y") 2]; lines := [] |}
           {| calls := [SelectAllOrder ColId true]; lines := [] |}
           0 {["name" := JStr "X"]} {["name" := JStr "Y"]} "X" "Y"
           (json (ok_data (DRow (mkRow 2 "X" 200))))
           (json (ok_data (DRow (mkRow 2 "Y" 200))))
           (json (ok_data (DRows [mkRow 1 "Widget" 100; mkRow 2 "Y" 200])))
           (mkRow 2 "X" 200)
           {| params_id := 0; req_body := None |});
    by vm_compute.
Defined.

Lemma update_of_absent_id_is_ok_witness :
  serve (put_api_data_id {| params_id := 5; req_body := Some {["name" := JStr "Y"]} |})
    {| fault := Healthy; now := 7 |} demo_table =
    (Returned (json (ok_data DUndefined)), demo_table,
     {| calls := [UpdateEqSelect (JStr "Y") 5]; lines := [] |}).
Proof.
  apply (update_of_absent_id_is_ok demo_table {| fault := Healthy; now := 7 |}
           {| params_id := 5; req_body := Some {["name" := JStr "Y"]} |}
           {["name" := JStr "Y"]} (JStr "Y") (ok_rows []));
    by vm_compute.
Defined.

Lemma whitespace_only_name_is_stored_witness :
  let req := {| params_id := 1; req_body := Some {["name" := JStr " "]} |} in
  let '(out, db', _) :=
    serve (post_api_data req) {| fault := Healthy; now := 7 |} demo_table in
  out = Returned (json (ok_data (DRow (mkRow 2 " " 7)))) ∧
  rows db' !! 2 = Some (" ", 7).
Proof.
  refine (proj1 (proj2 (proj2
    (whitespace_only_name_is_stored " "
       {| params_id := 1; req_body := Some {["name" := JStr " "]} |}
       {["name" := JStr " "]} _ _ _ _)))
    demo_table {| fault := Healthy; now := 7 |} _ _); by vm_compute.
Defined.

Lemma mutate_then_clear_then_reload_witness :
  trace (play (handleSave demo_editing 1)
           (start demo_editing demo_table (λ _, fair 200) true)).2 =
    [Called (setActionLoading (OnRow 1));
     Requested PUT (ApiDataId 1) (Some {["name" := JStr "Gadget"]});
     Answered PUT (ApiDataId 1)
       (Responded 200 (Some (ok_data (DRow (mkRow 1 "Gadget" 100)))));
     Called (setEditingId None);
     Called (setEditValue "")] ++
    reload_events
      (Responded 200 (Some (ok_data (DRows [mkRow 1 "Gadget" 100])))) ++
    [Called (setActionLoading NoAction)].
Proof.
  etransitivity.
  - apply (proj1 (mutate_then_clear_then_reload demo_editing demo_table
                    (λ _, fair 200) true (SaveEdit 1) eq_refl eq_refl)).
  - by vm_compute.
Defined.

(** * More of the data service *)

(** Case analysis over a handler run: the body, the check on [name], the
    database's answer and what it holds. *)
Ltac handler_cases :=
  unfold get_root, get_api_health, get_api_data, post_api_data,
    put_api_data_id, delete_api_data_id, Backend.run;
  simpl;
  repeat match goal with
    | |- context [req_body ?r] => destruct (req_body r) as [?|]; simpl
    | |- context [truthy ?v] => destruct (truthy v) eqn:?; simpl
    | |- context [match ?a ?q ?s with _ => _ end] =>
        destruct (a q s) as [[?|?] ?] eqn:?; simpl
    | |- context [Db.error ?r] => destruct (Db.error r) eqn:?; simpl
    | |- context [Db.data ?r] => destruct (Db.data r) as [[|? ?]|] eqn:?; simpl
    end.

(** The handler behind a registered route is one of the six. *)
Lemma route_inv (m : Method) (e : Endpoint) (h : Request → handler) :
  route m e = Some h →
  h = get_root ∨ h = get_api_health ∨ h = get_api_data ∨
  h = post_api_data ∨ h = put_api_data_id ∨ h = delete_api_data_id.
Proof. destruct m, e; simpl; intros [= <-]; auto 7. Qed.

Section Responses.
Context {S : Type} (answer : Query → S → Reply * S).
Implicit Types (s : S) (req : Request).

(** X1. Whatever the database does (resolve, resolve with an error,
    reject) and whatever the request holds, every route answers: no
    exception leaves a handler, and a handler calls the database at most
    once. *)
Theorem every_route_responds s m e h req :
  route m e = Some h →
  ∃ resp, (Backend.run answer (h req) s).1.1 = Returned resp ∧
          (length (calls (Backend.run answer (h req) s).2) ≤ 1)%nat.
Proof.
  intros Hr. apply route_inv in Hr.
  destruct Hr as [-> | [-> | [-> | [-> | [-> | ->]]]]];
    handler_cases; eexists; (split; [reflexivity|simpl; lia]).
Qed.

(** X2. The status in the body always agrees with the status code: the
    code is 200 with status "ok", or it is 400 or 500 with status "error",
    a message and no data. *)
Theorem status_agrees_with_code s m e h req resp :
  route m e = Some h →
  (Backend.run answer (h req) s).1.1 = Returned resp →
  (code resp = 200 ∧ body_status (body resp) = "ok") ∨
  ((code resp = 400 ∨ code resp = 500) ∧
   body_status (body resp) = "error" ∧
   is_Some (body_message (body resp)) ∧
   body_data (body resp) = DUndefined).
Proof.
  intros Hr. apply route_inv in Hr.
  destruct Hr as [-> | [-> | [-> | [-> | [-> | ->]]]]];
    handler_cases; intros [= <-]; simpl; eauto 8.
Qed.


(** X4. With a body that is an object, a create or an update is answered
    400 exactly when its [name] is falsy ([undefined], [null], [false], [0]
    or the empty string), whatever the database would have said. *)
Theorem name_check_is_truthiness s req o resp1 resp2 :
  req_body req = Some o →
  (Backend.run answer (post_api_data req) s).1.1 = Returned resp1 →
  (Backend.run answer (put_api_data_id req) s).1.1 = Returned resp2 →
  (code resp1 = 400 ↔ truthy (default JUndefined (o !! "name")) = false) ∧
  (code resp2 = 400 ↔ truthy (default JUndefined (o !! "name")) = false).
Proof.
  intros Hb. unfold post_api_data, put_api_data_id, Backend.run.
  rewrite Hb. simpl.
  destruct (truthy (default JUndefined (o !! "name"))); simpl.
  - handler_cases; intros [= <-] [= <-]; simpl; split; split; done.
  - intros [= <-] [= <-]. simpl. done.
Qed.

End Responses.

(** * Requests against the table *)

Section Collection.
Implicit Types (db : Database) (o : Oracle) (req : Request).

(** Case analysis over a request served against the table. *)
Ltac served_cases o db :=
  unfold serve, get_root, get_api_health, get_api_data, post_api_data,
    put_api_data_id, delete_api_data_id, Backend.run, Db.exec;
  simpl;
  repeat match goal with
    | |- context [req_body ?r] => destruct (req_body r) as [?|]; simpl
    | |- context [truthy ?v] => destruct (truthy v) eqn:?; simpl
    | |- context [fault o] => destruct (fault o) eqn:?; simpl
    | |- context [after_failure ?c _ _ _] =>
        unfold after_failure; destruct c; simpl
    | |- context [column_text ?v] => destruct (column_text v) eqn:?; simpl
    | |- context [rows db !! ?k] => destruct (rows db !! k) as [[? ?]|] eqn:?; simpl
    end.

(** X6. The GET routes never write: whatever the environment, the table
    after the request is the table before it. *)
Theorem get_routes_change_nothing db o e h req :
  route GET e = Some h →
  (serve (h req) o db).1.2 = db.
Proof.
  intros Hr.
  assert (h = get_root ∨ h = get_api_health ∨ h = get_api_data) as Hh
    by (destruct e; simpl in Hr; inversion Hr; auto).
  destruct Hh as [-> | [-> | ->]]; served_cases o db; done.
Qed.

Lemma delete_200_inv db o req resp db' lg :
  serve (delete_api_data_id req) o db = (Returned resp, db', lg) →
  code resp = 200 →
  db' = {| rows := delete (params_id req) (rows db); next_id := next_id db |}.
Proof. served_cases o db; intros [= <- <- <-]; simpl; done. Qed.

(** X7. A successful create returns a record under the submitted name
    whose id no stored record has, and the collection afterwards is the
    collection before plus exactly that record. *)
Theorem create_adds_one_row db o req b x resp db' lg :
  req_body req = Some b → b !! "name" = Some (JStr x) →
  serve (post_api_data req) o db = (Returned resp, db', lg) →
  code resp = 200 →
  ∃ row, body_data (body resp) = DRow row ∧
         row_name row = x ∧
         (row_id row ∉ row_id <$> all_rows db) ∧
         all_rows db' ≡ₚ row :: all_rows db.
Proof.
  intros Hb Hn Hs Hc.
  destruct (create_200_inv _ _ _ _ _ _ _ _ Hb Hn Hs Hc)
    as (_ & _ & Hfree & Hd & ->).
  eexists. split; [exact Hd|]. split; [done|]. simpl. split.
  - intros (r & Hid & Hin)%list_elem_of_fmap.
    apply elem_of_all_rows in Hin. rewrite <-Hid in Hin. congruence.
  - unfold all_rows. simpl. by rewrite map_to_list_insert.
Qed.

(** X8. A successful update renames the record of that id, if there is
    one, and nothing else: every record keeps its id and [created_at],
    the others keep their name, and none is added or lost. *)
Theorem update_renames_one_row db o req b y resp db' lg :
  req_body req = Some b → b !! "name" = Some (JStr y) →
  serve (put_api_data_id req) o db = (Returned resp, db', lg) →
  code resp = 200 →
  let rename r :=
    if decide (row_id r = params_id req)
    then {| row_id := row_id r; row_name := y; row_created_at := row_created_at r |}
    else r in
  ∀ r, r ∈ all_rows db' ↔ ∃ r0, r0 ∈ all_rows db ∧ r = rename r0.
Proof.
  intros Hb Hn Hs Hc rename r.
  destruct (update_200_inv _ _ _ _ _ _ _ _ Hb Hn Hs Hc) as (_ & _ & _ & Hupd).
  rewrite elem_of_all_rows. unfold rename.
  destruct (rows db !! params_id req) as [[n c]|] eqn:Hin.
  - destruct Hupd as [_ ->]. split.
    + intros Hr. destruct (decide (row_id r = params_id req)) as [Heq|Hne].
      * rewrite Heq, lookup_insert_eq in Hr.
        exists (mkRow (params_id req) n c). split.
        -- by apply elem_of_all_rows.
        -- simpl. rewrite decide_True by done. destruct r; simpl in *. congruence.
      * rewrite lookup_insert_ne in Hr by done.
        exists r. split; [by apply elem_of_all_rows|]. by rewrite decide_False.
    + intros (r0 & Hr0 & ->). apply elem_of_all_rows in Hr0.
      destruct (decide (row_id r0 = params_id req)) as [Heq|Hne]; simpl.
      * rewrite Heq, lookup_insert_eq. rewrite Heq in Hr0. congruence.
      * by rewrite lookup_insert_ne.
  - destruct Hupd as [_ ->]. split.
    + intros Hr. exists r. split; [by apply elem_of_all_rows|].
      rewrite decide_False; [done|]. intros Heq. congruence.
    + intros (r0 & Hr0 & ->). apply elem_of_all_rows in Hr0.
      rewrite decide_False; [done|]. intros Heq. congruence.
Qed.

(** X9. After a successful delete, a successful list holds the records
    stored before except the one of the deleted id. *)
Theorem delete_then_list_omits
  db o1 o2 req req2 resp1 db1 lg1 resp2 db2 lg2 :
  serve (delete_api_data_id req) o1 db = (Returned resp1, db1, lg1) →
  code resp1 = 200 →
  serve (get_api_data req2) o2 db1 = (Returned resp2, db2, lg2) →
  code resp2 = 200 →
  ∃ l, body_data (body resp2) = DRows l ∧
       ∀ r, r ∈ l ↔ r ∈ all_rows db ∧ row_id r ≠ params_id req.
Proof.
  intros Hdel Hc1 Hget Hc2.
  rewrite (delete_200_inv _ _ _ _ _ _ Hdel Hc1) in Hget.
  destruct (list_200_inv _ _ _ _ _ _ Hget Hc2) as [Hd _].
  eexists. split; [exact Hd|]. intros r.
  rewrite merge_sort_Permutation, !elem_of_all_rows. simpl.
  rewrite lookup_delete_Some. intuition congruence.
Qed.

(** X10. The service keeps no idempotency record: two successful creates
    with the same name return two records with different ids, and both
    are stored afterwards. *)
Theorem repeated_create_makes_two
  db o1 o2 req b x resp1 db1 lg1 resp2 db2 lg2 :
  req_body req = Some b → b !! "name" = Some (JStr x) →
  serve (post_api_data req) o1 db = (Returned resp1, db1, lg1) →
  code resp1 = 200 →
  serve (post_api_data req) o2 db1 = (Returned resp2, db2, lg2) →
  code resp2 = 200 →
  ∃ r1 r2, body_data (body resp1) = DRow r1 ∧ body_data (body resp2) = DRow r2 ∧
           row_name r1 = x ∧ row_name r2 = x ∧
           row_id r1 ≠ row_id r2 ∧
           r1 ∈ all_rows db2 ∧ r2 ∈ all_rows db2.
Proof.
  intros Hb Hn Hs1 Hc1 Hs2 Hc2.
  destruct (create_200_inv _ _ _ _ _ _ _ _ Hb Hn Hs1 Hc1)
    as (_ & _ & _ & Hd1 & ->).
  destruct (create_200_inv _ _ _ _ _ _ _ _ Hb Hn Hs2 Hc2)
    as (_ & _ & _ & Hd2 & ->).
  simpl in *. do 2 eexists. split; [exact Hd1|]. split; [exact Hd2|].
  simpl. do 2 (split; [done|]). split; [lia|].
  rewrite !elem_of_all_rows. simpl. split.
  - rewrite lookup_insert_ne by lia. apply lookup_insert_eq.
  - apply lookup_insert_eq.
Qed.

(** X11. An update is idempotent: a second successful update with the same
    id and name leaves the table as the first left it and returns the same
    record. *)
Theorem update_is_idempotent
  db o1 o2 req b y resp1 db1 lg1 resp2 db2 lg2 :
  req_body req = Some b → b !! "name" = Some (JStr y) →
  serve (put_api_data_id req) o1 db = (Returned resp1, db1, lg1) →
  code resp1 = 200 →
  serve (put_api_data_id req) o2 db1 = (Returned resp2, db2, lg2) →
  code resp2 = 200 →
  db2 = db1 ∧ body_data (body resp2) = body_data (body resp1).
Proof.
  intros Hb Hn Hs1 Hc1 Hs2 Hc2.
  destruct (update_200_inv _ _ _ _ _ _ _ _ Hb Hn Hs1 Hc1) as (_ & _ & Hn1 & H1).
  destruct (update_200_inv _ _ _ _ _ _ _ _ Hb Hn Hs2 Hc2) as (_ & _ & Hn2 & H2).
  destruct db1 as [m1 k1], db2 as [m2 k2]. simpl in *.
  destruct (rows db !! params_id req) as [[n c]|] eqn:Hin.
  - destruct H1 as [Hd1 ->]. rewrite lookup_insert_eq in H2.
    destruct H2 as [Hd2 ->]. rewrite insert_insert_eq.
    split; [by f_equal|congruence].
  - destruct H1 as [Hd1 ->]. rewrite Hin in H2. destruct H2 as [Hd2 ->].
    split; [by f_equal|congruence].
Qed.

End Collection.

(** * More of the client *)

Section Transport.
Implicit Types (d : Database) (env : Env) (config : Options).

(** What comes back from a request that reaches the routes: a 404 for a
    path that is not routed, or a JSON body under 200, 400 or 500. *)
Lemma http_reply_shape e config env d :
  reachable env = true →
  let reply := (http e config env d).1 in
  reply = Responded 404 None ∨
  ∃ c b, reply = Responded c (Some b) ∧ (c = 200 ∨ c = 400 ∨ c = 500).
Proof.
  intros Hreach. unfold http. rewrite Hreach.
  destruct (route (method config) e) as [h|] eqn:Hr; [|by left]. right.
  apply route_inv in Hr.
  destruct Hr as [-> | [-> | [-> | [-> | [-> | ->]]]]];
    unfold serve, get_root, get_api_health, get_api_data, post_api_data,
      put_api_data_id, delete_api_data_id, Backend.run; simpl;
    repeat match goal with
      | |- context [opt_body ?r] => destruct (opt_body r) as [?|]; simpl
      | |- context [truthy ?v] => destruct (truthy v); simpl
      | |- context [Db.exec ?q ?o ?s] =>
          destruct (Db.exec q o s) as [[?|?] ?]; simpl
      | |- context [Db.error ?r] => destruct (Db.error r); simpl
      | |- context [Db.data ?r] => destruct (Db.data r) as [[|? ?]|]; simpl
      end;
    eauto 8.
Qed.

Lemma http_list_healthy env d config :
  method config = GET → reachable env = true → fault (oracle env) = Healthy →
  (http ApiData config env d).1 =
    Responded 200 (Some (ok_data (DRows (merge_sort (row_le ColId true) (all_rows d))))).
Proof.
  intros Hm Hr Hf. unfold http. rewrite Hr, Hm. simpl.
  unfold serve, Backend.run, get_api_data, Db.exec. simpl. by rewrite Hf.
Qed.
End Transport.

(** X12. The client never sees the service's error text: when a request
    reaches the routes and [api.fetch] throws, the message is "API Error: "
    followed by 400, 404 or 500, whatever message the response body
    carried.  When [fetch] itself rejects, its error is thrown on as it
    is. *)
Theorem client_errors_are_generic
  (e : Endpoint) (options : Options) (w : World) (err : Error) :
  (play (api.fetch e options) w).1 = Threw err →
  let env := net w (served w) in
  (reachable env = true →
   message err ∈ ["API Error: 400"; "API Error: 404"; "API Error: 500"]) ∧
  (∀ thrown, reachable env = false → otherwise env = Rejects thrown →
   err = thrown).
Proof.
  unfold api.fetch. simpl. pass_request. intros Hthrew. split.
  - intros Hreach. revert Hthrew.
    match goal with
    | |- context [(http ?e ?c ?env ?d).1] =>
        destruct (http_reply_shape e c env d Hreach) as [-> | (c0 & b & -> & Hc)]
    end; simpl.
    + intros [= <-]. vm_compute message. set_solver.
    + destruct Hc as [-> | [-> | ->]]; simpl; intros [= <-];
        vm_compute message; set_solver.
  - intros thrown Hreach Hrej. revert Hthrew.
    unfold http. rewrite Hreach, Hrej. simpl. by intros [= <-].
Qed.

Import View.

(** Opens the world and the state so that setter calls compute. *)
Ltac open_world w :=
  destruct w as [[? ? ? ? ? ? ? ? ? ?] ? ? ? ? ?]; simpl in *.

(** X13. A reload never throws and always ends with [dataLoading] false.
    When its request succeeds the collection shown is replaced by the one
    received and made visible; when it fails the collection and its
    visibility stay as they were and the user is alerted.  No other state
    variable changes. *)
Theorem reload_replaces_or_keeps (w : World) :
  let reply := (http ApiData (sent GET None) (net w (served w)) (db w)).1 in
  let w' := (play fetchData w).2 in
  (play fetchData w).1 = Returned tt ∧
  dataLoading (ui w') = false ∧
  match settled reply with
  | inl b => data (ui w') = data_or_empty (body_data b) ∧ showData (ui w') = true
  | inr _ => data (ui w') = data (ui w) ∧ showData (ui w') = showData (ui w) ∧
             Alerted "Failed to fetch data from database" ∈ trace w'
  end ∧
  (backendStatus (ui w'), loading (ui w'), editingId (ui w'), editValue (ui w'),
   showAddForm (ui w'), newName (ui w'), actionLoading (ui w')) =
  (backendStatus (ui w), loading (ui w), editingId (ui w), editValue (ui w),
   showAddForm (ui w), newName (ui w), actionLoading (ui w)).
Proof.
  open_world w. unfold fetchData, settled, sent. simpl. pass_request.
  destruct (http _ _ _ _).1 as [c [b|]|err]; simpl;
    try destruct ((200 <=? c) && (c <=? 299)); simpl;
    repeat split; set_solver.
Qed.

(** X14. A mutation that is not sent changes nothing: with text that is
    empty after trimming (add, save) or a declined prompt (delete) the
    handler makes no request, leaves the client's state and the table as
    they were, and only alerts or prompts. *)
Theorem unsent_mutation_changes_nothing (st : State) (w : World) (mu : Mutation) :
  issued st (user_confirms w) mu = false →
  let w' := (play (handler_of st mu) w).2 in
  (play (handler_of st mu) w).1 = Returned tt ∧
  ui w' = ui w ∧ db w' = db w ∧ served w' = served w ∧
  trace w' = trace w ++ [refusal mu].
Proof.
  destruct mu as [|id|id]; simpl; intros Hno.
  - unfold handleAdd. by rewrite Hno.
  - unfold handleSave. by rewrite Hno.
  - unfold handleDelete. simpl. by rewrite Hno.
Qed.

(** X15. When the mutation request fails the handler does not reload and
    does not clear: one request is made, the error is logged, the user is
    alerted, and the state is what the handler started from with only the
    in-flight marker reset, so an edit in progress or a filled add form
    stays on screen. *)
Theorem failed_mutation_keeps_transient_state
  (st : State) (d : Database) (n : nat → Env) (yes : bool) (mu : Mutation)
  (err : Error) :
  let first := http (endpoint_of mu) (sent (method_of mu) (body_of st mu)) (n 0%nat) d in
  let w' := (play (handler_of st mu) (start st d n yes)).2 in
  issued st yes mu = true →
  settled first.1 = inr err →
  trace w' =
    prompt_of mu ++
    [Called (setActionLoading (marker_of mu));
     Requested (method_of mu) (endpoint_of mu) (body_of st mu);
     Answered (method_of mu) (endpoint_of mu) first.1;
     Logged (failure_label mu) err;
     Alerted (failure_notice mu);
     Called (setActionLoading NoAction)] ∧
  ui w' = released st ∧
  served w' = 1%nat ∧
  db w' = first.2.
Proof.
  intros first w' Hissued Hfail. subst first w'. unfold settled in Hfail.
  destruct st as [? ? ? ? ? ? ? ? ? ?].
  destruct mu as [|id|id]; simpl in *.
  - unfold handleAdd. simpl. rewrite Hissued. simpl. pass_request.
    unfold sent in *.
    destruct (http _ _ _ _).1 as [c [b|]|e']; simpl in *;
      try destruct ((200 <=? c) && (c <=? 299)); simpl in *;
      try discriminate Hfail; injection Hfail as <-; done.
  - unfold handleSave. simpl. rewrite Hissued. simpl. pass_request.
    unfold sent in *.
    destruct (http _ _ _ _).1 as [c [b|]|e']; simpl in *;
      try destruct ((200 <=? c) && (c <=? 299)); simpl in *;
      try discriminate Hfail; injection Hfail as <-; done.
  - subst yes. unfold handleDelete. simpl. pass_request.
    unfold sent in *.
    destruct (http _ _ _ _).1 as [c [b|]|e']; simpl in *;
      try destruct ((200 <=? c) && (c <=? 299)); simpl in *;
      try discriminate Hfail; injection Hfail as <-; done.
Qed.

(** Every way a handler's two requests can be answered. *)
Ltac all_replies :=
  repeat first
    [ progress pass_request
    | match goal with
      | |- context [match (http ?e ?c ?env ?d).1 with _ => _ end] =>
          destruct (http e c env d).1 as [? [?|]|?]; simpl
      | |- context [if negb ((200 <=? ?c) && (?c <=? 299)) then _ else _] =>
          destruct ((200 <=? c) && (c <=? 299)); simpl
      end ].

(** X16. Whatever the service and the network do, the three mutation
    handlers return without throwing, and once a request was sent the
    in-flight marker is back to [null] at the end, so no button stays
    disabled; [dataLoading] is false again whenever a reload ran. *)
Theorem handlers_release_the_marker
  (st : State) (d : Database) (n : nat → Env) (yes : bool) (mu : Mutation) :
  let w' := (play (handler_of st mu) (start st d n yes)).2 in
  (play (handler_of st mu) (start st d n yes)).1 = Returned tt ∧
  actionLoading (ui w') =
    (if issued st yes mu then NoAction else actionLoading st) ∧
  add_disabled (ui w') = (if issued st yes mu then false else add_disabled st) ∧
  ((served w' = 2)%nat → dataLoading (ui w') = false).
Proof.
  destruct st as [bs ld dt dl sd ei ev sf nn al].
  destruct mu as [|id|id]; simpl.
  - unfold handleAdd, add_disabled. simpl.
    destruct (nonempty (trim nn)); simpl; [|done].
    all_replies; done.
  - unfold handleSave, add_disabled. simpl.
    destruct (nonempty (trim ev)); simpl; [|done].
    all_replies; done.
  - unfold handleDelete, add_disabled. simpl.
    destruct yes; simpl; [|done].
    all_replies; done.
Qed.

(** X17. After a mutation that succeeded and a reload that reached a sound
    database, the collection on screen is the stored collection, in
    ascending id, and it is visible. *)
Theorem view_matches_the_table
  (st : State) (d : Database) (n : nat → Env) (yes : bool) (mu : Mutation) :
  let first := http (endpoint_of mu) (sent (method_of mu) (body_of st mu)) (n 0%nat) d in
  let w' := (play (handler_of st mu) (start st d n yes)).2 in
  issued st yes mu = true →
  api_ok first.1 = true →
  reachable (n 1%nat) = true →
  fault (oracle (n 1%nat)) = Healthy →
  db w' = first.2 ∧
  items (ui w') = merge_sort (row_le ColId true) (all_rows (db w')) ∧
  showData (ui w') = true.
Proof.
  intros first w' Hissued Hok Hr Hf. subst first w'.
  apply api_ok_inv in Hok as (status & b & Hreply & Hrange).
  destruct st as [bs ld dt dl sd ei ev sf nn al]. unfold items.
  destruct mu as [|id|id]; simpl in *.
  - unfold handleAdd. simpl. rewrite Hissued. simpl. pass_request.
    unfold sent in *. rewrite Hreply. simpl. rewrite Hrange. simpl.
    pass_request. rewrite (http_list_keeps_table (n 1%nat)) by done.
    rewrite (http_list_healthy (n 1%nat)) by done. done.
  - unfold handleSave. simpl. rewrite Hissued. simpl. pass_request.
    unfold sent in *. rewrite Hreply. simpl. rewrite Hrange. simpl.
    pass_request. rewrite (http_list_keeps_table (n 1%nat)) by done.
    rewrite (http_list_healthy (n 1%nat)) by done. done.
  - subst yes. unfold handleDelete. simpl. pass_request.
    unfold sent in *. rewrite Hreply. simpl. rewrite Hrange. simpl.
    pass_request. rewrite (http_list_keeps_table (n 1%nat)) by done.
    rewrite (http_list_healthy (n 1%nat)) by done. done.
Qed.

Section Health.
Implicit Types (d : Database) (env : Env).

Lemma http_health env d config :
  method config = GET → reachable env = true →
  http ApiHealth config env d =
    (Responded 200
       (Some (ok_message (health_message (Db.exec SelectCount (oracle env) d).1))),
     d).
Proof.
  intros Hm Hr. unfold http. rewrite Hr, Hm. simpl.
  unfold serve, Backend.run, get_api_health, Db.exec. simpl.
  by destruct (fault (oracle env)) as [|? []|? []].
Qed.

Lemma http_unreachable e env d config :
  reachable env = false →
  http e config env d =
    (match otherwise env with
     | Rejects err => Unreachable err
     | TooLarge => Responded 413 None
     end, d).
Proof. intros Hr. unfold http. rewrite Hr. by destruct (otherwise env). Qed.

Lemma health_message_nonempty reply : nonempty (health_message reply) = true.
Proof.
  unfold health_message.
  destruct reply as [r|e]; [destruct (Db.error r)|]; reflexivity.
Qed.
End Health.

(** X18. The connection check at mount never throws, never writes, and
    always ends the loading state.  When the service is reached the status
    shown is the service's own message (the 'Connected!' fallback is never
    used, the message being non-empty); when it is not reached the status
    is "Failed to connect to backend". *)
Theorem connection_check_reports
  (st : State) (d : Database) (n : nat → Env) (yes : bool) :
  let w' := (play checkBackendConnection (start st d n yes)).2 in
  (play checkBackendConnection (start st d n yes)).1 = Returned tt ∧
  loading (ui w') = false ∧
  db w' = d ∧
  backendStatus (ui w') =
    if reachable (n 0%nat)
    then health_message (Db.exec SelectCount (oracle (n 0%nat)) d).1
    else "Failed to connect to backend".
Proof.
  destruct st as [bs ld dt dl sd ei ev sf nn al].
  unfold checkBackendConnection. simpl. pass_request.
  destruct (reachable (n 0%nat)) eqn:Hr.
  - rewrite http_health by done. simpl.
    unfold message_or. rewrite health_message_nonempty. done.
  - rewrite http_unreachable by done.
    by destruct (otherwise (n 0%nat)).
Qed.

(** X19. The style of the status line after the connection check: it is
    'status-ok' when the service was reached and the database call
    resolved, also when it resolved with an error; it is 'status-error'
    when the service was not reached, and also when it was reached and
    answered "ok" but the database call had thrown. *)
Theorem status_style_after_check
  (st : State) (d : Database) (n : nat → Env) (yes : bool) :
  let w' := (play checkBackendConnection (start st d n yes)).2 in
  status_text (ui w') = backendStatus (ui w') ∧
  status_class (ui w') =
    if reachable (n 0%nat) then
      match fault (oracle (n 0%nat)) with
      | Healthy | Fails _ _ => "status-ok"
      | Crashes _ _ => "status-error"
      end
    else "status-error".
Proof.
  destruct st as [bs ld dt dl sd ei ev sf nn al].
  unfold checkBackendConnection, status_text, status_class. simpl. pass_request.
  destruct (reachable (n 0%nat)) eqn:Hr.
  - rewrite http_health by done. simpl.
    unfold message_or. rewrite health_message_nonempty. simpl.
    unfold Db.exec. destruct (fault (oracle (n 0%nat))); simpl; try done.
    split; [done|]. by rewrite orb_true_r.
  - rewrite http_unreachable by done.
    by destruct (otherwise (n 0%nat)).
Qed.

(** A key that does not repeat selects at most one element. *)
Lemma NoDup_key_filter_le_1 (l : list Row) (i : option Z) :
  NoDup (row_id <$> l) →
  (length (filter (λ item, i = Some (row_id item)) l) ≤ 1)%nat.
Proof.
  induction l as [|x l IH]; simpl; [lia|].
  rewrite NoDup_cons. intros [Hx Hl]. rewrite filter_cons.
  destruct (decide (i = Some (row_id x))) as [->|]; [|by apply IH].
  simpl. destruct (filter _ l) as [|y k] eqn:Hk; [simpl; lia|].
  exfalso. apply Hx.
  assert (y ∈ filter (λ item, Some (row_id x) = Some (row_id item)) l) as Hy
    by (rewrite Hk; left).
  apply list_elem_of_filter in Hy as [[= ->] Hy].
  by apply list_elem_of_fmap_2.
Qed.

(** X20. The rows a successful reload from a sound database puts on screen
    have pairwise distinct ids, so whatever [editingId] is, at most one of
    them is drawn in edit mode. *)
Theorem at_most_one_row_in_edit_mode (w : World) (st : State) :
  reachable (net w (served w)) = true →
  fault (oracle (net w (served w))) = Healthy →
  data st = data (ui (play fetchData w).2) →
  NoDup (row_id <$> items st) ∧
  (length (filter (λ item, in_edit_mode st item = true) (items st)) ≤ 1)%nat.
Proof.
  intros Hr Hf Hd.
  assert (items st = merge_sort (row_le ColId true) (all_rows (db w))) as Hitems.
  { unfold items. rewrite Hd. clear Hd. open_world w.
    unfold fetchData. simpl. pass_request.
    rewrite http_list_healthy by done. done. }
  assert (NoDup (row_id <$> items st)) as Hnd.
  { rewrite Hitems, merge_sort_Permutation. apply NoDup_ids. }
  split; [done|].
  erewrite list_filter_iff; [by apply (NoDup_key_filter_le_1 _ (editingId st))|].
  intros item. unfold in_edit_mode. by rewrite bool_decide_eq_true.
Qed.

Section Flows.
Implicit Types (d : Database) (env : Env) (config : Options).

Lemma http_update_stores env d config b s id old created :
  method config = PUT → opt_body config = Some b →
  b !! "name" = Some (JStr s) → s ≠ "" →
  reachable env = true → fault (oracle env) = Healthy →
  rows d !! id = Some (old, created) →
  http (ApiDataId id) config env d =
    (Responded 200 (Some (ok_data (DRow (mkRow id s created)))),
     {| rows := <[id := (s, created)]> (rows d); next_id := next_id d |}).
Proof.
  intros Hm Hc Hb Hs Hr Hf Hin. unfold http. rewrite Hr, Hm. simpl.
  unfold serve, Backend.run, put_api_data_id, Db.exec. simpl. rewrite Hc. simpl.
  rewrite Hb. simpl.
  destruct (String.eqb_spec s "") as [|_]; [done|]. simpl.
  rewrite Hf. simpl. by rewrite Hin.
Qed.

Lemma http_delete_removes env d config id :
  method config = DELETE →
  reachable env = true → fault (oracle env) = Healthy →
  http (ApiDataId id) config env d =
    (Responded 200 (Some (ok_message "Deleted successfully")),
     {| rows := delete id (rows d); next_id := next_id d |}).
Proof.
  intros Hm Hr Hf. unfold http. rewrite Hr, Hm. simpl.
  unfold serve, Backend.run, delete_api_data_id, Db.exec. simpl.
  by rewrite Hf.
Qed.

End Flows.

(** X21. Editing a stored record and saving it, with the service reached
    and the database sound for both requests: the record takes the edit
    text exactly as typed (it is checked trimmed but sent untrimmed) and
    keeps its [created_at]; no other record changes; the edit mode is left;
    and the screen shows the stored collection with the renamed record. *)
Theorem edit_and_save_round_trip
  (st : State) (d : Database) (n : nat → Env) (yes : bool)
  (id : Z) (old : string) (created : Z) :
  nonempty (trim (editValue st)) = true →
  rows d !! id = Some (old, created) →
  reachable (n 0%nat) = true → fault (oracle (n 0%nat)) = Healthy →
  reachable (n 1%nat) = true → fault (oracle (n 1%nat)) = Healthy →
  let w' := (play (handleSave st id) (start st d n yes)).2 in
  rows (db w') = <[id := (editValue st, created)]> (rows d) ∧
  editingId (ui w') = None ∧ editValue (ui w') = "" ∧
  items (ui w') = merge_sort (row_le ColId true) (all_rows (db w')) ∧
  mkRow id (editValue st) created ∈ items (ui w').
Proof.
  intros Hvalid Hin Hr0 Hf0 Hr1 Hf1.
  assert (editValue st ≠ "") as Hne by (by intros E; rewrite E in Hvalid).
  destruct st as [bs ld dt dl sd ei ev sf nn al]. unfold items. simpl in *.
  unfold handleSave. simpl. rewrite Hvalid. simpl. pass_request.
  rewrite (http_update_stores (n 0%nat) d _ {["name" := JStr ev]} ev id old created);
    [|done|done|apply lookup_singleton_eq|done..].
  simpl. pass_request.
  rewrite (http_list_keeps_table (n 1%nat)) by done.
  rewrite (http_list_healthy (n 1%nat)) by done. simpl.
  repeat split.
  rewrite merge_sort_Permutation. apply elem_of_all_rows. simpl.
  apply lookup_insert_eq.
Qed.

(** X22. A confirmed delete, with the service reached and the database
    sound for both requests, removes that record and no other, and the
    screen shows the stored collection without it.  The handler never
    touches the edit state: if the deleted record was being edited,
    [editingId] still names it afterwards. *)
Theorem confirmed_delete_removes
  (st : State) (d : Database) (n : nat → Env) (id : Z) :
  reachable (n 0%nat) = true → fault (oracle (n 0%nat)) = Healthy →
  reachable (n 1%nat) = true → fault (oracle (n 1%nat)) = Healthy →
  let w' := (play (handleDelete id) (start st d n true)).2 in
  rows (db w') = delete id (rows d) ∧
  items (ui w') = merge_sort (row_le ColId true) (all_rows (db w')) ∧
  (∀ r, r ∈ items (ui w') → row_id r ≠ id) ∧
  editingId (ui w') = editingId st ∧ editValue (ui w') = editValue st.
Proof.
  intros Hr0 Hf0 Hr1 Hf1.
  destruct st as [bs ld dt dl sd ei ev sf nn al]. unfold items. simpl in *.
  unfold handleDelete. simpl. pass_request.
  rewrite (http_delete_removes (n 0%nat)) by done.
  simpl. pass_request.
  rewrite (http_list_keeps_table (n 1%nat)) by done.
  rewrite (http_list_healthy (n 1%nat)) by done. simpl.
  repeat split.
  intros r. rewrite merge_sort_Permutation, elem_of_all_rows. simpl.
  intros Hr Heq. by rewrite Heq, lookup_delete_eq in Hr.
Qed.


(** X24. [api.fetch] always sends a Content-Type: the caller's when the
    options carry one, "application/json" otherwise; every other header of
    the caller is passed on unchanged, and so are the method and body. *)
Theorem fetch_sets_content_type (e : Endpoint) (options : Options) :
  ∃ config k,
    api.fetch e options = Vis (Fetch e config) k ∧
    method config = method options ∧ opt_body config = opt_body options ∧
    headers config !! "Content-Type" =
      Some (default "application/json" (headers options !! "Content-Type")) ∧
    ∀ name, name ≠ "Content-Type" →
      headers config !! name = headers options !! name.
Proof.
  unfold api.fetch. do 2 eexists. split; [reflexivity|]. simpl.
  do 2 (split; [done|]). split.
  - rewrite lookup_union.
    destruct (headers options !! "Content-Type") as [v|] eqn:Hv; simpl.
    + by rewrite union_Some_l.
    + by rewrite lookup_singleton_eq.
  - intros name Hn. rewrite lookup_union, lookup_singleton_ne by done.
    by destruct (headers options !! name).
Qed.

(** ** The further statements at concrete inputs *)

Lemma every_route_responds_witness :
  ∃ resp,
    (Backend.run (λ q, Db.exec q crashed)
       (post_api_data (mkRequest 0 (named (JStr "x")))) demo_table).1.1
      = Returned resp ∧
    (length (calls (Backend.run (λ q, Db.exec q crashed)
                      (post_api_data (mkRequest 0 (named (JStr "x"))))
                      demo_table).2) ≤ 1)%nat.
Proof.
  apply (every_route_responds (λ q, Db.exec q crashed) demo_table
           POST ApiData post_api_data (mkRequest 0 (named (JStr "x")))).
  reflexivity.
Defined.

Lemma status_agrees_with_code_witness :
  (500 = 200 ∧ "error" = "ok") ∨
  ((500 = 400 ∨ 500 = 500) ∧ "error" = "error" ∧
   is_Some (Some "connection refused") ∧ DUndefined = DUndefined).
Proof.
  apply (status_agrees_with_code (λ q, Db.exec q broken) demo_table
           GET ApiData get_api_data (mkRequest 0 None)
           (status_json 500 (error_message "connection refused")));
    reflexivity.
Defined.


Lemma name_check_is_truthiness_witness :
  (400 = 400 ↔ truthy (JNum 0) = false) ∧
  (400 = 400 ↔ truthy (JNum 0) = false).
Proof.
  exact (name_check_is_truthiness (λ q, Db.exec q sound) demo_table
           (mkRequest 1 (named (JNum 0))) {["name" := JNum 0]}
           (status_json 400 (error_message "Name is required"))
           (status_json 400 (error_message "Name is required"))
           eq_refl eq_refl eq_refl).
Defined.

Lemma get_routes_change_nothing_witness :
  (serve (get_api_data (mkRequest 0 None)) sound demo_shuffled).1.2 = demo_shuffled.
Proof.
  apply (get_routes_change_nothing demo_shuffled sound ApiData get_api_data).
  reflexivity.
Defined.

Lemma create_adds_one_row_witness :
  ∃ row, DRow (mkRow 2 "Gadget" 200) = DRow row ∧
         row_name row = "Gadget" ∧
         (row_id row ∉ row_id <$> all_rows demo_table) ∧
         all_rows (serve (post_api_data (mkRequest 0 (named (JStr "Gadget"))))
                     sound demo_table).1.2
           ≡ₚ row :: all_rows demo_table.
Proof.
  apply (create_adds_one_row demo_table sound
           (mkRequest 0 (named (JStr "Gadget"))) {["name" := JStr "Gadget"]}
           "Gadget"
           (json (ok_data (DRow (mkRow 2 "Gadget" 200)))) _
           {| calls := [InsertSelect (JStr "Gadget")]; lines := [] |});
    reflexivity.
Defined.

Lemma update_renames_one_row_witness :
  mkRow 1 "Gadget" 100 ∈
    all_rows (serve (put_api_data_id (mkRequest 1 (named (JStr "Gadget"))))
                sound demo_table).1.2.
Proof.
  apply (update_renames_one_row demo_table sound
           (mkRequest 1 (named (JStr "Gadget"))) {["name" := JStr "Gadget"]}
           "Gadget"
           (json (ok_data (DRow (mkRow 1 "Gadget" 100))))
           (serve (put_api_data_id (mkRequest 1 (named (JStr "Gadget"))))
              sound demo_table).1.2
           {| calls := [UpdateEqSelect (JStr "Gadget") 1]; lines := [] |}
           eq_refl eq_refl eq_refl eq_refl).
  exists (mkRow 1 "Widget" 100). split; [|reflexivity].
  apply elem_of_all_rows. reflexivity.
Defined.

Lemma delete_then_list_omits_witness :
  ∃ l, DRows [mkRow 1 "a" 50; mkRow 3 "c" 30] = DRows l ∧
       ∀ r, r ∈ l ↔ r ∈ all_rows demo_shuffled ∧ row_id r ≠ 2.
Proof.
  eapply (delete_then_list_omits demo_shuffled sound sound
           (mkRequest 2 None) (mkRequest 0 None)
           (json (ok_message "Deleted successfully")) _
           {| calls := [DeleteEq 2]; lines := [] |}
           (json (ok_data (DRows [mkRow 1 "a" 50; mkRow 3 "c" 30]))) _
           {| calls := [SelectAllOrder ColId true]; lines := [] |});
    reflexivity.
Defined.

Lemma repeated_create_makes_two_witness :
  ∃ r1 r2, DRow (mkRow 2 "Widget" 200) = DRow r1 ∧
           DRow (mkRow 3 "Widget" 200) = DRow r2 ∧
           row_name r1 = "Widget" ∧ row_name r2 = "Widget" ∧
           row_id r1 ≠ row_id r2 ∧
           r1 ∈ all_rows
                  {| rows := <[3 := ("Widget", 200)]>
                               (<[2 := ("Widget", 200)]> (rows demo_table));
                     next_id := 4 |} ∧
           r2 ∈ all_rows
                  {| rows := <[3 := ("Widget", 200)]>
                               (<[2 := ("Widget", 200)]> (rows demo_table));
                     next_id := 4 |}.
Proof.
  eapply (repeated_create_makes_two demo_table sound sound
            (mkRequest 0 (named (JStr "Widget"))) {["name" := JStr "Widget"]}
            "Widget"
            (json (ok_data (DRow (mkRow 2 "Widget" 200)))) _
            {| calls := [InsertSelect (JStr "Widget")]; lines := [] |}
            (json (ok_data (DRow (mkRow 3 "Widget" 200)))) _
            {| calls := [InsertSelect (JStr "Widget")]; lines := [] |});
    reflexivity.
Defined.

Lemma update_is_idempotent_witness :
  {| rows := <[1 := ("Gadget", 100)]> (<[1 := ("Gadget", 100)]> (rows demo_table));
     next_id := 2 |} =
  {| rows := <[1 := ("Gadget", 100)]> (rows demo_table); next_id := 2 |} ∧
  DRow (mkRow 1 "Gadget" 100) = DRow (mkRow 1 "Gadget" 100).
Proof.
  eapply (update_is_idempotent demo_table sound sound
            (mkRequest 1 (named (JStr "Gadget"))) {["name" := JStr "Gadget"]}
            "Gadget"
            (json (ok_data (DRow (mkRow 1 "Gadget" 100)))) _
            {| calls := [UpdateEqSelect (JStr "Gadget") 1]; lines := [] |}
            (json (ok_data (DRow (mkRow 1 "Gadget" 100)))) _
            {| calls := [UpdateEqSelect (JStr "Gadget") 1]; lines := [] |});
    reflexivity.
Defined.

Lemma client_errors_are_generic_witness :
  "API Error: 500" ∈ ["API Error: 400"; "API Error: 404"; "API Error: 500"].
Proof.
  apply (proj1 (client_errors_are_generic ApiData
                  {| method := GET; opt_body := None; headers := ∅ |}
                  (start demo_editing demo_table degraded true)
                  (mkError "API Error: 500") eq_refl)).
  reflexivity.
Defined.

Lemma unsent_mutation_changes_nothing_witness :
  let w := start demo_blank demo_table (λ _, fair 200) true in
  let w' := (play (handleAdd demo_blank) w).2 in
  (play (handleAdd demo_blank) w).1 = Returned tt ∧
  ui w' = ui w ∧ db w' = db w ∧ served w' = served w ∧
  trace w' = trace w ++ [Alerted "Please enter a name"].
Proof.
  apply (unsent_mutation_changes_nothing demo_blank
           (start demo_blank demo_table (λ _, fair 200) true) AddNew).
  reflexivity.
Defined.

Lemma failed_mutation_keeps_transient_state_witness :
  let w' := (play (handleSave demo_editing 1)
               (start demo_editing demo_table degraded true)).2 in
  ui w' = released demo_editing ∧ served w' = 1%nat ∧ db w' = demo_table.
Proof.
  exact (proj2 (failed_mutation_keeps_transient_state demo_editing demo_table
                  degraded true (SaveEdit 1) (mkError "API Error: 500")
                  eq_refl eq_refl)).
Defined.

Lemma view_matches_the_table_witness :
  let w' := (play (handleAdd demo_adding)
               (start demo_adding demo_table (λ _, fair 200) true)).2 in
  items (ui w') = merge_sort (row_le ColId true) (all_rows (db w')) ∧
  showData (ui w') = true.
Proof.
  exact (proj2 (view_matches_the_table demo_adding demo_table (λ _, fair 200)
                  true AddNew eq_refl eq_refl eq_refl eq_refl)).
Defined.

Lemma at_most_one_row_in_edit_mode_witness :
  NoDup (row_id <$> [mkRow 1 "a" 50; mkRow 2 "b" 10; mkRow 3 "c" 30]) ∧
  (length (filter (λ item, in_edit_mode
                             (apply (setData (DRows [mkRow 1 "a" 50; mkRow 2 "b" 10;
                                                     mkRow 3 "c" 30])) demo_editing)
                             item = true)
             [mkRow 1 "a" 50; mkRow 2 "b" 10; mkRow 3 "c" 30]) ≤ 1)%nat.
Proof.
  exact (at_most_one_row_in_edit_mode
           (start demo_editing demo_shuffled (λ _, fair 200) true)
           (apply (setData (DRows [mkRow 1 "a" 50; mkRow 2 "b" 10; mkRow 3 "c" 30]))
              demo_editing)
           eq_refl eq_refl eq_refl).
Defined.

Lemma edit_and_save_round_trip_witness :
  let w' := (play (handleSave demo_editing 1)
               (start demo_editing demo_table (λ _, fair 200) true)).2 in
  rows (db w') = <[1 := ("Gadget", 100)]> (rows demo_table) ∧
  editingId (ui w') = None ∧ editValue (ui w') = "" ∧
  items (ui w') = merge_sort (row_le ColId true) (all_rows (db w')) ∧
  mkRow 1 "Gadget" 100 ∈ items (ui w').
Proof.
  exact (edit_and_save_round_trip demo_editing demo_table (λ _, fair 200) true
           1 "Widget" 100 eq_refl eq_refl eq_refl eq_refl eq_refl eq_refl).
Defined.

Lemma confirmed_delete_removes_witness :
  let w' := (play (handleDelete 1)
               (start demo_editing demo_table (λ _, fair 200) true)).2 in
  rows (db w') = delete 1 (rows demo_table) ∧
  items (ui w') = merge_sort (row_le ColId true) (all_rows (db w')) ∧
  (∀ r, r ∈ items (ui w') → row_id r ≠ 1) ∧
  editingId (ui w') = Some 1 ∧ editValue (ui w') = "Gadget".
Proof.
  exact (confirmed_delete_removes demo_editing demo_table (λ _, fair 200) 1
           eq_refl eq_refl eq_refl eq_refl).
Defined.

